(** * workflow/utils.py: the schema synthesis pipeline and the config lookup

    A shallow embedding of [src/workflow/utils.py].  Pure parts of the code
    (the introspector's loop, path arithmetic) are Rocq functions; the parts
    that touch the process (temporary files, the subprocess, [sys.path],
    the cache) are written in a small state-and-exception monad over a
    [world] record.  What the Python runtime and the operating system
    contribute (the external tool, the interpreter compiling and running
    the generated source, the bytecode cache, the random temporary names)
    is collected in a [Platform]. *)

From stdpp Require Import base strings list gmap sorting pretty.
From Stdlib Require Import Ascii String ZArith Lia.

Local Open Scope string_scope.

(** ** Strings *)

(** The line feed, written ["\n"] in the source. *)
Definition nl : string := String (ascii_of_nat 10) "".

(** ** Python objects the introspector looks at *)

(** An entry of a class's [__annotations__]: the object standing for the
    declared type.  The code only asks whether it has a [__name__] and, when
    it has none, for its [repr]. *)
Record annotation := Annotation {
  ann_name : option string;
  ann_repr : string
}.

(** A class object.  [cls_id] is the object's identity, [cls_mro] the
    identities of the classes of its method resolution order (itself
    first), [cls_annotations] its [__annotations__] mapping in insertion
    order. *)
Record class_obj := ClassObj {
  cls_id : positive;
  cls_name : string;
  cls_module : string;
  cls_mro : list positive;
  cls_annotations : list (string * annotation)
}.

Inductive pyobj :=
  | PyClass (c : class_obj)
  | PyOther (r : string).

(** A loaded module: its [__name__] and its namespace.  The namespace is a
    Python dict, which keeps the order in which its keys were first bound:
    [mod_dict] lists the top-level bindings in that order, so for a unit made
    of class statements it is the unit's declaration order. *)
Record module := Module_ {
  mod_name : string;
  mod_dict : list (string * pyobj)
}.

Definition isclass (o : pyobj) : bool :=
  match o with PyClass _ => true | PyOther _ => false end.

(** [issubclass(c, b)]: [b] is one of the classes of [c]'s mro. *)
Definition issubclass (c b : class_obj) : bool :=
  bool_decide (cls_id b ∈ cls_mro c).

(** [getattr(module, name, None)]. *)
Fixpoint dict_get (d : list (string * pyobj)) (name : string) : option pyobj :=
  match d with
  | [] => None
  | (k, v) :: d' => if decide (k = name) then Some v else dict_get d' name
  end.

Definition getattr (m : module) (name : string) : option pyobj :=
  dict_get (mod_dict m) name.

(** *** Sorting pairs by their first component

    [list.sort(key=lambda pair: pair[0])] and [sorted] are stable and
    compare [str] keys by code point, which on UTF-8 text is the bytewise
    order of [String.leb]. *)
Fixpoint insert_by_name {A} (x : string * A) (l : list (string * A))
  : list (string * A) :=
  match l with
  | [] => [x]
  | y :: l' =>
      if String.leb x.1 y.1 then x :: y :: l' else y :: insert_by_name x l'
  end.

Definition sort_by_name {A} (l : list (string * A)) : list (string * A) :=
  foldr insert_by_name [] l.

(** [inspect.getmembers(object, predicate)] on a module: the names of
    [dir(object)] (sorted), each with its value, kept when the predicate
    holds, and the result sorted by name once more. *)
Definition dir_items (m : module) : list (string * pyobj) :=
  sort_by_name (mod_dict m).

Definition getmembers (m : module) (predicate : pyobj → bool)
  : list (string * pyobj) :=
  sort_by_name (filter (λ kv, predicate kv.2 = true) (dir_items m)).

(** ** The introspector's loop ([get_classes_from_module], lines 110-122) *)

Definition field_type_name (field_type : annotation) : string :=
  match ann_name field_type with
  | Some n => n
  | None => ann_repr field_type
  end.

(** The inner [for] over [obj.__annotations__.items()]. *)
Definition add_field (class_details : string) (item : string * annotation)
  : string :=
  class_details +:+ "  " +:+ item.1 +:+ ": " +:+ field_type_name item.2 +:+ nl.

(** The test of line 112. *)
Definition qualifies (m : module) (base_class : class_obj) (obj : class_obj)
  : bool :=
  issubclass obj base_class && bool_decide (cls_module obj = mod_name m).

(** One iteration of the outer [for]. *)
Definition add_class (m : module) (base_class : class_obj)
    (class_details : string) (member : string * pyobj) : string :=
  match member.2 with
  | PyClass obj =>
      if qualifies m base_class obj then
        fold_left add_field (cls_annotations obj)
          (class_details +:+ nl +:+ "class " +:+ member.1 +:+ "("
             +:+ cls_name base_class +:+ "):" +:+ nl)
      else class_details
  | PyOther _ => class_details
  end.

Definition class_details_of (m : module) (base_class : class_obj) : string :=
  fold_left (add_class m base_class) (getmembers m isclass) "".

(** ** The data model of the specification (section 3), for comparison *)

Record FieldDescriptor := {
  name : string;
  type_label : string
}.

Record ClassDescriptor := {
  class_name : string;
  base_name : string;
  fields : list FieldDescriptor
}.

(** The type label as the specification words it (section 4.4): the
    declared type's canonical name if it exposes one, else a fallback
    textual representation of the type. *)
Definition spec_type_label (declared_type : annotation) : string :=
  match ann_name declared_type with
  | Some canonical_name => canonical_name
  | None => ann_repr declared_type
  end.

(** The descriptor of a type as the specification words it: [class_name]
    is the type's declared name, [base_name] the base type's declared
    name, [fields] the type's own declared fields, in their order, each
    with its type label. *)
Definition spec_descriptor (base_type type : class_obj) : ClassDescriptor :=
  {| class_name := cls_name type;
     base_name := cls_name base_type;
     fields := (λ f, {| name := f.1; type_label := spec_type_label f.2 |})
                 <$> cls_annotations type |}.

(** That descriptor under the name a unit binds the type to. *)
Definition bound_descriptor (base_type : class_obj)
    (member : string * class_obj) : ClassDescriptor :=
  {| class_name := member.1;
     base_name := base_name (spec_descriptor base_type member.2);
     fields := fields (spec_descriptor base_type member.2) |}.

(** A member the loop emits a descriptor for, with its class. *)
Definition keep (m : module) (base_class : class_obj) (kv : string * pyobj)
  : option (string * class_obj) :=
  match kv.2 with
  | PyClass c => if qualifies m base_class c then Some (kv.1, c) else None
  | PyOther _ => None
  end.

(** The members for which the loop emits a descriptor, in the order the
    loop meets them. *)
Definition qualifying_members (m : module) (base_class : class_obj)
  : list (string * class_obj) :=
  omap (keep m base_class) (getmembers m isclass).

(** What the loop writes for a member, as a descriptor: the header has the
    name the member is bound to (line 113), the labels are those of lines
    115-119. *)
Definition describe (base_class : class_obj) (member : string * class_obj)
  : ClassDescriptor :=
  {| class_name := member.1;
     base_name := cls_name base_class;
     fields := (λ f, {| name := f.1; type_label := field_type_name f.2 |})
                 <$> cls_annotations member.2 |}.

Definition extract (m : module) (base_class : class_obj)
  : list ClassDescriptor :=
  describe base_class <$> qualifying_members m base_class.

(** Rendering as the specification words it (section 4.4): a header line,
    then one indented line per field. *)
Definition render_field (f : FieldDescriptor) : string :=
  "  " +:+ name f +:+ ": " +:+ type_label f +:+ nl.

Definition concat_strings (l : list string) : string :=
  foldr String.app "" l.

Definition render_class (d : ClassDescriptor) : string :=
  "class " +:+ class_name d +:+ "(" +:+ base_name d +:+ "):" +:+ nl
    +:+ concat_strings (render_field <$> fields d).

(** Blocks with one empty line between two consecutive ones. *)
Fixpoint blank_line_separated (blocks : list string) : string :=
  match blocks with
  | [] => ""
  | [b] => b
  | b :: bs => b +:+ nl +:+ blank_line_separated bs
  end.

(** The classes of a namespace in binding order: the unit's declaration
    order restricted to the classes that qualify. *)
Definition declared_qualifying (m : module) (base_class : class_obj)
  : list (string * class_obj) :=
  omap (keep m base_class) (mod_dict m).

(** Ascending order of the names. *)
Definition by_name {A} (x y : string * A) : Prop := String.le x.1 y.1.

(** ** Path arithmetic ([os.path.split], [os.path.splitext], [Path.stem]) *)

Definition chars (s : string) : list ascii := list_ascii_of_string s.
Definition of_chars (l : list ascii) : string := string_of_list_ascii l.

Definition is_char (c : ascii) (a : ascii) : bool := bool_decide (a = c).

(** The longest prefix without [c], and what follows it ([c] included). *)
Fixpoint take_until (c : ascii) (l : list ascii) : list ascii :=
  match l with
  | [] => []
  | a :: l' => if is_char c a then [] else a :: take_until c l'
  end.

Fixpoint drop_until (c : ascii) (l : list ascii) : list ascii :=
  match l with
  | [] => []
  | a :: l' => if is_char c a then l else drop_until c l'
  end.

Fixpoint lstrip (c : ascii) (l : list ascii) : list ascii :=
  match l with
  | [] => []
  | a :: l' => if is_char c a then lstrip c l' else l
  end.

(** [s.split(sep)] for a one-character separator: the pieces between the
    separators, empty pieces included. *)
Fixpoint str_split (sep : ascii) (s : string) : list string :=
  match s with
  | "" => [""]
  | String a s' =>
      if is_char sep a then "" :: str_split sep s'
      else match str_split sep s' with
           | [] => [String a ""]
           | piece :: pieces => String a piece :: pieces
           end
  end.

(** [s.endswith(suffix)]. *)
Definition str_endswith (s suffix : string) : bool :=
  bool_decide (chars suffix `suffix_of` chars s).

(** [posixpath.split]: cut after the last slash; the head loses its
    trailing slashes unless it consists of slashes only. *)
Definition os_path_split (p : string) : string * string :=
  let r := rev (chars p) in
  let tail_r := take_until "/" r in
  let head_r := drop_until "/" r in
  let head_r := if forallb (is_char "/") head_r then head_r
                else lstrip "/" head_r in
  (of_chars (rev head_r), of_chars (rev tail_r)).

(** [posixpath.splitext(p)[0]]: cut before the last dot, when that dot
    comes after the last slash and is not one of the leading dots of the
    file name. *)
Definition os_path_splitext_root (p : string) : string :=
  let r := rev (chars p) in
  let ext_r := take_until "." r in
  match drop_until "." r with
  | [] => p
  | _dot :: rest_r =>
      if existsb (is_char "/") ext_r then p
      else if forallb (is_char ".") (take_until "/" rest_r) then p
      else of_chars (rev rest_r)
  end.

(** [Path(p).name]: [pathlib] cuts the text at the slashes and drops the
    empty components and the components [.]; the name is the last
    component left, the empty string when none is. *)
Definition path_name (p : string) : string :=
  default ""
    (last (filter (λ part, part ≠ "" ∧ part ≠ ".") (str_split "/" p))).

(** [Path(p).stem]: the name up to its last dot, the whole name when that
    dot is its first or its last character. *)
Definition path_stem (p : string) : string :=
  let name := path_name p in
  let name_r := rev (chars name) in
  match take_until "." name_r, drop_until "." name_r with
  | _ :: _, _dot :: c :: before => of_chars (rev (c :: before))
  | _, _ => name
  end.

(** [posixpath.join(a, b)] for two components. *)
Definition os_path_join (a b : string) : string :=
  match chars b, rev (chars a) with
  | "/"%char :: _, _ => b
  | _, [] => b
  | _, "/"%char :: _ => a +:+ b
  | _, _ => a +:+ "/" +:+ b
  end.

(** ** The process as the pipeline sees it *)

Inductive py_exception :=
  | CalledProcessError (returncode : Z) (cmd : string)
  | PyError (type_name : string).

(** A positional argument of [print]. *)
Inductive printed :=
  | PStr (s : string)
  | PExc (e : py_exception).

(** What a child process does to the files: it exits with a status, having
    rewritten the store, or it never exits. *)
Inductive process :=
  | Exited (returncode : Z) (files' : gmap string string)
  | Hangs.

Record world := World {
  files : gmap string string;
  sys_path : list string;
  stdout : list (list printed);
  draws : nat
}.

Definition set_files (f : gmap string string → gmap string string)
    (w : world) : world :=
  {| files := f (files w); sys_path := sys_path w;
     stdout := stdout w; draws := draws w |}.

Definition set_sys_path (f : list string → list string) (w : world) : world :=
  {| files := files w; sys_path := f (sys_path w);
     stdout := stdout w; draws := draws w |}.

Definition set_stdout (f : list (list printed) → list (list printed))
    (w : world) : world :=
  {| files := files w; sys_path := sys_path w;
     stdout := f (stdout w); draws := draws w |}.

Definition set_draws (f : nat → nat) (w : world) : world :=
  {| files := files w; sys_path := sys_path w;
     stdout := stdout w; draws := f (draws w) |}.

(** How a call ends: with a value, with an exception travelling up the
    stack, or not at all (the thread waits for ever). *)
Inductive outcome (A : Type) :=
  | Return (a : A)
  | Raise (e : py_exception)
  | Blocked.
Arguments Return {A} a.
Arguments Raise {A} e.
Arguments Blocked {A}.

Definition M (A : Type) : Type := world → outcome A * world.

Definition ret {A} (a : A) : M A := λ w, (Return a, w).

Definition raise {A} (e : py_exception) : M A := λ w, (Raise e, w).

Definition bind {A B} (k : A → M B) (m : M A) : M B := λ w,
  match m w with
  | (Return a, w') => k a w'
  | (Raise e, w') => (Raise e, w')
  | (Blocked, w') => (Blocked, w')
  end.

#[export] Instance M_ret : MRet M := @ret.
#[export] Instance M_bind : MBind M := @bind.

(** [try: body except subprocess.CalledProcessError as e: handler]. *)
Definition try_except_CalledProcessError {A} (body : M A)
    (handler : py_exception → M A) : M A := λ w,
  match body w with
  | (Raise (CalledProcessError rc cmd), w') =>
      handler (CalledProcessError rc cmd) w'
  | r => r
  end.

Definition print (args : list printed) : M unit := λ w,
  (Return (), set_stdout (λ out, app out [args]) w).

(** What the runtime and the operating system contribute. *)
Class Platform := {
  (** the values [create_pydantic_model] may be handed *)
  Sample : Type;
  (** [json.dumps]: the text, or the exception for a value that has none *)
  json_dumps : Sample → py_exception + string;
  (** [os.getcwd()], absolute and normalised *)
  getcwd : string;
  (** the candidate names [tempfile] draws, in drawing order *)
  rand_name : nat → string;
  (** [/bin/sh -c command] run to completion on the current files *)
  sh : string → gmap string string → process;
  (** whether [tempfile], removing the file on the way out of the [with]
      block, lets pass that the file is already gone: Python 3.12 and
      later do, earlier versions raise [FileNotFoundError] *)
  unlink_missing_ok : bool;
  (** code objects *)
  Code : Type;
  (** [compile] as the source loader calls it on the text of a file and its
      location: the code object, or the exception ([SyntaxError], ...) *)
  source_to_code : string → string → py_exception + Code;
  (** [exec(code, module.__dict__)] in a new module with the given
      [__name__], located at the given path: the module object after its
      body has run, or the exception that came out *)
  exec_code : string → string → Code → py_exception + module;
  (** [importlib.util.cache_from_source(path)] without its final [.pyc]:
      the [__pycache__] directory beside the source, the file name without
      its extension, and the cache tag of the interpreter *)
  cache_stem : string → string;
  (** the content of the cache file written for a source text and its
      code object *)
  bytecode : string → Code → string;
  (** [sys.dont_write_bytecode] *)
  dont_write_bytecode : bool;
  (** the loaders for a unit name and a location that does not end in
      [.py] (extension modules, bytecode files), given the content found
      there: [None] when no loader takes the suffix *)
  load_binary : string → string → option string
                → option (py_exception + module);
  (** [pydantic.BaseModel] *)
  BaseModel : class_obj
}.

(** [tempfile.TMP_MAX], which is [os.TMP_MAX] on Linux. *)
Definition TMP_MAX : nat := N.to_nat 238328.

Section Pipeline.
Context {P : Platform}.

(** [tempfile._mkstemp_inner]: try candidate names until one can be
    created exclusively. *)
Fixpoint mkstemp_inner (attempts : nat) (dir pre suf : string) : M string :=
  λ w,
  match attempts with
  | O => (Raise (PyError "FileExistsError"), w)
  | S n =>
      let file := os_path_join dir (pre +:+ rand_name (draws w) +:+ suf) in
      let w := set_draws S w in
      match files w !! file with
      | Some _ => mkstemp_inner n dir pre suf w
      | None => (Return file, set_files (insert file "") w)
      end
  end.

(** [os.unlink(f)] as [tempfile] calls it when the file object is closed
    on the way out of the [with] block. *)
Definition unlink_on_exit (f : string) : M unit := λ w,
  match files w !! f with
  | Some _ => (Return (), set_files (delete f) w)
  | None =>
      if unlink_missing_ok then (Return (), w)
      else (Raise (PyError "FileNotFoundError"), w)
  end.

(** The way out of a [with] block over the temporary file [f], for a body
    that has ended as [r]: the file is removed; an exception raised by
    the removal takes the place of the body's result or exception. *)
Definition leave {A} (f : string) (r : outcome A * world)
  : outcome A * world :=
  match r with
  | (Blocked, w) => (Blocked, w)
  | (r, w) =>
      match unlink_on_exit f w with
      | (Return _, w) => (r, w)
      | (Raise e, w) => (Raise e, w)
      | (Blocked, w) => (Blocked, w)
      end
  end.

(** [with tempfile.NamedTemporaryFile(mode="w+", dir=dir, suffix=suffix,
    delete=True) as f: body]; [f] stands for [f.name].  Leaving the
    block, by its end or by an exception, closes and removes the file. *)
Definition with_NamedTemporaryFile {A} (dir suffix : string)
    (body : string → M A) : M A := λ w,
  match mkstemp_inner TMP_MAX dir "tmp" suffix w with
  | (Return f, w) => leave f (body f w)
  | (Raise e, w) => (Raise e, w)
  | (Blocked, w) => (Blocked, w)
  end.

(** [json.dump(obj, f); f.flush()]. *)
Definition json_dump (obj : Sample) (f : string) : M unit := λ w,
  match json_dumps obj with
  | inl e => (Raise e, w)
  | inr text => (Return (), set_files (insert f text) w)
  end.

(** [subprocess.run(args, check=check, shell=True)].  No timeout is
    given, so [run] waits for the child however long it takes. *)
Definition subprocess_run (args : string) (check : bool) : M Z := λ w,
  match sh args (files w) with
  | Hangs => (Blocked, w)
  | Exited returncode files' =>
      let w := set_files (λ _, files') w in
      if check && negb (returncode =? 0)%Z
      then (Raise (CalledProcessError returncode args), w)
      else (Return returncode, w)
  end.

(** [importlib.util.cache_from_source(path)]. *)
Definition cache_from_source (path : string) : string :=
  cache_stem path +:+ ".pyc".

(** The source loader caches the code object it has compiled, unless
    [sys.dont_write_bytecode] is set. *)
Definition cache_bytecode (path text : string) (code : Code) (w : world)
  : world :=
  if dont_write_bytecode then w
  else set_files (insert (cache_from_source path) (bytecode text code)) w.

(** [exec_module] of the source loader: read the file, compile the text,
    cache the bytecode, run the code in the new module.  A cache file
    that is valid for the source holds the bytecode of this very text,
    so taking the code from it gives the same code object and leaves the
    same cache file; the test of validity (the time of modification and
    the size recorded in the cache file) is not modelled. *)
Definition load_source (module_name path : string) : M module := λ w,
  match files w !! path with
  | None => (Raise (PyError "FileNotFoundError"), w)
  | Some text =>
      match source_to_code text path with
      | inl e => (Raise e, w)
      | inr code =>
          let w := cache_bytecode path text code w in
          match exec_code module_name path code with
          | inl e => (Raise e, w)
          | inr module => (Return module, w)
          end
      end
  end.

(** Lines 89-91 and 102-104: [spec_from_file_location] chooses the loader
    by the suffix of the path, the source loader for [.py]; without a
    loader it returns [None], and [module_from_spec(None)] raises
    [AttributeError]. *)
Definition load_unit (module_name path : string) : M module := λ w,
  if str_endswith path ".py" then load_source module_name path w
  else
    match load_binary module_name path (files w !! path) with
    | None => (Raise (PyError "AttributeError"), w)
    | Some (inl e) => (Raise e, w)
    | Some (inr module) => (Return module, w)
    end.

Definition sys_path_append (directory : string) : M unit := λ w,
  (Return (), set_sys_path (λ path, app path [directory]) w).

Definition sys_path_contains (directory : string) : M bool := λ w,
  (Return (bool_decide (directory ∈ sys_path w)), w).

Definition import_model_from_generated_file (file_path : string)
  : M (option pyobj) :=
  let '(directory, module_name) := os_path_split file_path in
  let module_name := os_path_splitext_root module_name in
  present ← sys_path_contains directory;
  (if (present : bool) then ret () else sys_path_append directory);;
  module ← load_unit module_name file_path;
  let Model := getattr module "Model" in
  ret Model.

Definition import_module_from_path (path : string) : M module :=
  let module_name := path_stem path in
  load_unit module_name path.

Definition get_classes_from_module (path : string) (base_class : class_obj)
  : M string :=
  module ← import_module_from_path path;
  ret (class_details_of module base_class).

Definition codegen_command (tmp_json tmp_py : string) : string :=
  "datamodel-codegen --input " +:+ tmp_json +:+ " --output " +:+ tmp_py.

(** Lines 68-72. *)
Definition run_generator (command : string) : M unit :=
  try_except_CalledProcessError
    (subprocess_run command true;;
     print [PStr "model generation successful"])
    (λ e, print [PStr "An error occurred while generating the pydantic model:";
                 PExc e]).

Definition create_pydantic_model (jsonData : Sample)
  : M (option pyobj * string) :=
  with_NamedTemporaryFile getcwd ".json" (λ tmp_json,
    json_dump jsonData tmp_json;;
    with_NamedTemporaryFile getcwd ".py" (λ tmp_py,
      let command := codegen_command tmp_json tmp_py in
      run_generator command;;
      (* [Path(tmp_py.name)]: the text of a normalised absolute path is
         its own [Path] *)
      let tmp_py_path := tmp_py in
      Model ← import_model_from_generated_file tmp_py_path;
      class_string ← get_classes_from_module tmp_py_path BaseModel;
      ret (Model, class_string))).
End Pipeline.

(** ** The configuration lookup ([get_workflow_config], lines 17-31) *)

Section Config.
(** Identifiers as the caller passes them, their [str()] form, and the
    rows of [WorkflowConfig].  [Id] stands for the values the primary key
    can hold; for any other value the database lookup raises [ValueError]
    or [ValidationError], which is not modelled. *)
Context {Id : Type} `{Countable Id} (str : Id → string) {Row : Type}.

(** The Django side: the cache and the [WorkflowConfig] table by id. *)
Record django := Django {
  cache : gmap string Row;
  table : gmap Id Row
}.

Definition D (A : Type) : Type := django → outcome A * django.

(** [cache.get(key)]: the entry, [None] without one. *)
Definition cache_get (key : string) : D (option Row) := λ s,
  (Return (cache s !! key), s).

(** [get_object_or_404(WorkflowConfig, id=i)]. *)
Definition get_object_or_404 (i : Id) : D Row := λ s,
  match table s !! i with
  | Some row => (Return row, s)
  | None => (Raise (PyError "Http404"), s)
  end.

Definition get_workflow_config (workflow_config : Id) : D (option Row) :=
  λ s,
  let cache_key := "workflow_config_" +:+ str workflow_config in
  match cache_get cache_key s with
  | (Return config, s) =>
      match config with
      | None =>
          match get_object_or_404 workflow_config s with
          | (Return _, s) => (Return config, s)
          | (Raise e, s) => (Raise e, s)
          | (Blocked, s) => (Blocked, s)
          end
      | Some _ => (Return config, s)
      end
  | (Raise e, s) => (Raise e, s)
  | (Blocked, s) => (Blocked, s)
  end.
End Config.

(** ** Runs of the pipeline, cut into stages *)

Section Stages.
Context {P : Platform}.

(** The first steps of [create_pydantic_model] (lines 55-63): both
    temporary files exist and the sample is written, the tool has not
    been started yet. *)
Definition prepare (jsonData : Sample) : M (string * string) :=
  tmp_json ← mkstemp_inner TMP_MAX getcwd "tmp" ".json";
  json_dump jsonData tmp_json;;
  tmp_py ← mkstemp_inner TMP_MAX getcwd "tmp" ".py";
  ret (tmp_json, tmp_py).

(** Lines 64-77, inside both [with] blocks. *)
Definition generate_and_load (tmp_json tmp_py : string)
  : M (option pyobj * string) :=
  run_generator (codegen_command tmp_json tmp_py);;
  Model ← import_model_from_generated_file tmp_py;
  class_string ← get_classes_from_module tmp_py BaseModel;
  ret (Model, class_string).

(** The unit names the two loads of one file use. *)
Definition loader_unit_name (file_path : string) : string :=
  os_path_splitext_root (os_path_split file_path).2.

(** A sequence of separate calls of the loader; each call ends, with a
    value or an exception, before the next one starts. *)
Definition load_calls (paths : list string) (w : world) : world :=
  fold_left (λ w path, (import_model_from_generated_file path w).2) paths w.
(** What the loader leaves of [sys.path] (lines 86-87). *)
Definition register (directory : string) (w : world) : world :=
  if bool_decide (directory ∈ sys_path w) then w
  else set_sys_path (λ l, app l [directory]) w.

(** The line printed after the tool has exited (lines 70 and 72). *)
Definition generator_report (rc : Z) (cmd : string) : list printed :=
  if (rc =? 0)%Z then [PStr "model generation successful"]
  else [PStr "An error occurred while generating the pydantic model:";
        PExc (CalledProcessError rc cmd)].

(** Lines 75 and 77 on a file that holds [text]: the text is compiled
    and run twice, once by each of the two functions. *)
Definition load_and_describe (tmp_py text : string)
  : outcome (option pyobj * string) :=
  match source_to_code text tmp_py with
  | inl e => Raise e
  | inr code =>
      match exec_code (loader_unit_name tmp_py) tmp_py code with
      | inl e => Raise e
      | inr m1 =>
          match exec_code (path_stem tmp_py) tmp_py code with
          | inl e => Raise e
          | inr m2 =>
              Return (getattr m1 "Model", class_details_of m2 BaseModel)
          end
      end
  end.

(** What loading the source file at [path] leaves of the files, when the
    file holds [text]. *)
Definition cache_update (path text : string) (fs : gmap string string)
  : gmap string string :=
  match source_to_code text path with
  | inl _ => fs
  | inr code =>
      if dont_write_bytecode then fs
      else <[cache_from_source path := bytecode text code]> fs
  end.

(** The cache files a sequence of loader calls writes, in the order of the
    calls, on files [fs]. *)
Definition cache_writes (paths : list string) (fs : gmap string string)
  : list (string * string) :=
  flat_map (λ path,
    if str_endswith path ".py" && negb dont_write_bytecode then
      match fs !! path with
      | Some text =>
          match source_to_code text path with
          | inr code => [(cache_from_source path, bytecode text code)]
          | inl _ => []
          end
      | None => []
      end
    else []) paths.

Definition write_all (writes : list (string * string))
    (fs : gmap string string) : gmap string string :=
  fold_left (λ fs kv, <[kv.1 := kv.2]> fs) writes fs.
End Stages.

(** ** Concrete platforms *)

Module Scenario.

Definition dq : string := String (ascii_of_nat 34) "".

(** Samples: flat objects with integer values, such as [{"a": 1}]. *)
Definition sample := list (string * Z).

Fixpoint dump_items (l : sample) : string :=
  match l with
  | [] => ""
  | [(k, v)] => dq +:+ k +:+ dq +:+ ": " +:+ pretty v
  | (k, v) :: l' => dq +:+ k +:+ dq +:+ ": " +:+ pretty v +:+ ", "
                      +:+ dump_items l'
  end.

Definition dumps (s : sample) : py_exception + string :=
  inr ("{" +:+ dump_items s +:+ "}").

Definition a_is_1 : sample := [("a", 1%Z)].

Definition cwd : string := "/srv/app".

Definition candidate (n : nat) : string :=
  nth n ["k3v9x0qa"; "p_w81mzt"] "zzzzzzzz".

Definition json_path : string := "/srv/app/tmpk3v9x0qa.json".
Definition py_path : string := "/srv/app/tmpp_w81mzt.py".

Definition object_class : class_obj :=
  {| cls_id := 1; cls_name := "object"; cls_module := "builtins";
     cls_mro := [1%positive]; cls_annotations := [] |}.

Definition base_model : class_obj :=
  {| cls_id := 2; cls_name := "BaseModel"; cls_module := "pydantic.main";
     cls_mro := [2%positive; 1%positive]; cls_annotations := [] |}.

Definition int_type : annotation := Annotation (Some "int") "<class 'int'>".

(** The union [int | None], an object without [__name__]. *)
Definition optional_int : annotation :=
  Annotation None "int | None".

(** A class declared by a unit called [unit]. *)
Definition declared (unit : string) (id : positive) (cname : string)
    (annotations : list (string * annotation)) : class_obj :=
  {| cls_id := id; cls_name := cname; cls_module := unit;
     cls_mro := [id; 2%positive; 1%positive];
     cls_annotations := annotations |}.

(** The text the tool writes for [{"a": 1}]. *)
Definition model_source : string :=
  "from pydantic import BaseModel" +:+ nl +:+ nl +:+
  "class Model(BaseModel):" +:+ nl +:+
  "    a: int" +:+ nl.

Definition model_unit (unit : string) : module :=
  {| mod_name := unit;
     mod_dict := [("__name__", PyOther unit);
                  ("BaseModel", PyClass base_model);
                  ("Model", PyClass (declared unit 10 "Model"
                                       [("a", int_type)]))] |}.

(** A unit whose top-level class has another name. *)
Definition root_source : string :=
  "from pydantic import BaseModel" +:+ nl +:+ nl +:+
  "class Root(BaseModel):" +:+ nl +:+
  "    a: int" +:+ nl.

Definition root_unit (unit : string) : module :=
  {| mod_name := unit;
     mod_dict := [("__name__", PyOther unit);
                  ("BaseModel", PyClass base_model);
                  ("Root", PyClass (declared unit 10 "Root"
                                      [("a", int_type)]))] |}.

Definition empty_unit (unit : string) : module :=
  {| mod_name := unit; mod_dict := [("__name__", PyOther unit)] |}.

(** A unit that binds its class to a second name. *)
Definition alias_source : string :=
  model_source +:+ nl +:+ "Record = Model" +:+ nl.

Definition alias_unit (unit : string) : module :=
  {| mod_name := unit;
     mod_dict := [("__name__", PyOther unit);
                  ("BaseModel", PyClass base_model);
                  ("Model", PyClass (declared unit 10 "Model"
                                       [("a", int_type)]));
                  ("Record", PyClass (declared unit 10 "Model"
                                        [("a", int_type)]))] |}.

(** Text that is no Python source. *)
Definition broken_source : string := "class Model(BaseModel" +:+ nl.

(** Python source whose body raises [NameError] when it is run: the base
    class is not imported. *)
Definition failing_source : string :=
  "class Model(BaseModel):" +:+ nl +:+
  "    a: int" +:+ nl.

(** An interpreter that knows these texts: the code object of a text is
    the text itself. *)
Definition compile (text location : string) : py_exception + string :=
  if bool_decide (text ∈ [""; model_source; root_source; alias_source;
                          failing_source])
  then inr text
  else inl (PyError "SyntaxError").

Definition python (unit location code : string) : py_exception + module :=
  if decide (code = "") then inr (empty_unit unit)
  else if decide (code = model_source) then inr (model_unit unit)
  else if decide (code = root_source) then inr (root_unit unit)
  else if decide (code = alias_source) then inr (alias_unit unit)
  else inl (PyError "NameError").

(** The cache file of [dir/name.py] is [dir/__pycache__/name.cpython-311.pyc]. *)
Definition pycache_stem (path : string) : string :=
  (os_path_split path).1 +:+ "/__pycache__/"
    +:+ os_path_splitext_root (os_path_split path).2 +:+ ".cpython-311".

Definition pyc (text code : string) : string := "<bytecode of>" +:+ code.


(** None of the files at hand is an extension module or a bytecode file. *)
Definition binary_loaders (unit location : string) (content : option string)
  : option (py_exception + module) :=
  if str_endswith location ".so" then Some (inl (PyError "ImportError"))
  else if str_endswith location ".pyc" then
    Some (inl (PyError (match content with
                        | Some _ => "ImportError"
                        | None => "FileNotFoundError"
                        end)))
  else None.

(** A unit that declares [Zeta], then [Alpha], then [Model], after
    importing [BaseModel]. *)
Definition nested_unit : module :=
  {| mod_name := "tmpp_w81mzt";
     mod_dict :=
       [("__name__", PyOther "tmpp_w81mzt");
        ("BaseModel", PyClass base_model);
        ("Zeta", PyClass (declared "tmpp_w81mzt" 10 "Zeta"
                            [("x", int_type)]));
        ("Alpha", PyClass (declared "tmpp_w81mzt" 11 "Alpha"
                             [("y", int_type); ("b", optional_int)]));
        ("Model", PyClass (declared "tmpp_w81mzt" 12 "Model"
                             [("zeta", Annotation (Some "Zeta") "Zeta");
                              ("alpha", Annotation (Some "Alpha") "Alpha")]))]
  |}.

Definition platform (shell : string → gmap string string → process)
  : Platform :=
  {| Sample := sample; json_dumps := dumps; getcwd := cwd;
     rand_name := candidate; sh := shell;
     unlink_missing_ok := false;
     Code := string; source_to_code := compile; exec_code := python;
     cache_stem := pycache_stem; bytecode := pyc;
     dont_write_bytecode := false; load_binary := binary_loaders;
     BaseModel := base_model |}.

(** The tool is not installed: the shell answers 127 and writes
    nothing. *)
Definition tool_missing : Platform :=
  platform (λ _ fs, Exited 127 fs).

(** The tool exits with status 0 and writes nothing. *)
Definition tool_silent : Platform :=
  platform (λ _ fs, Exited 0 fs).

(** The tool writes [text] to the output path and exits with [status]. *)
Definition tool_writes (status : Z) (text : string) : Platform :=
  platform (λ command fs,
    if decide (command = codegen_command json_path py_path)
    then Exited status (<[py_path := text]> fs)
    else Exited 127 fs).

(** The tool never exits. *)
Definition tool_hangs : Platform :=
  platform (λ _ _, Hangs).

Definition start : world :=
  {| files := {[ "/srv/app/manage.py" := "#!/usr/bin/env python" ]};
     sys_path := ["/srv/app/src"; "/usr/lib/python3.11"];
     stdout := [];
     draws := 0 |}.

(** A Django side whose table has row 7 and whose cache is empty, and one
    whose cache holds the row. *)
Definition uncached : @django Z _ _ string :=
  {| cache := ∅; table := {[ 7%Z := "row 7" ]} |}.

Definition cached : @django Z _ _ string :=
  {| cache := {[ "workflow_config_7" := "row 7" ]};
     table := {[ 7%Z := "row 7" ]} |}.

Definition str_int (i : Z) : string := pretty i.

End Scenario.

(** ** Cache invalidation ([dehydrate_cache], lines 34-50) *)

Section Dehydrate.
Context {Id : Type} `{Countable Id} {Row : Type}.

(** The backend's [delete_pattern] method, when the backend has one (the
    Redis backend does, the built-in ones do not): what a call with a
    pattern leaves of the entries. *)
Context (delete_pattern : option (string → gmap string Row → gmap string Row)).

(** [cache.delete(key)]. *)
Definition cache_delete (key : string) : @D Id _ _ Row unit := λ s,
  (Return (), {| cache := delete key (cache s); table := table s |}).

(** [cache.delete_pattern(pattern)] on a backend that has it. *)
Definition cache_delete_pattern
    (del : string → gmap string Row → gmap string Row) (pattern : string)
  : @D Id _ _ Row unit := λ s,
  (Return (), {| cache := del pattern (cache s); table := table s |}).

Definition dehydrate_cache (key_pattern : string) : @D Id _ _ Row unit :=
  match delete_pattern with
  | Some del => cache_delete_pattern del key_pattern
  | None => cache_delete key_pattern
  end.
End Dehydrate.

(** ** The views ([src/workflow/views.py]) *)

(** *** [WorkflowSearchView.get_queryset] (lines 409-413) *)

Section Search.
(** The rows of [Workflows] and their [tags] array ([None] for a null
    column); the table is a list in the order the database returns it. *)
Context {Workflow : Type} (tags : Workflow → option (list string)).

(** [tags__overlap=query]: the array shares an element with [query]. *)
Definition tags_overlap (query : list string) (w : Workflow) : bool :=
  match tags w with
  | Some ts => existsb (λ t, bool_decide (t ∈ query)) ts
  | None => false
  end.

Definition get_queryset (query_params : gmap string string)
    (workflows : list Workflow) : list Workflow :=
  let tags_param := default "" (query_params !! "tags") in
  let tags_query :=
    if decide (tags_param = "") then [] else str_split "," tags_param in
  match tags_query with
  | [] => workflows
  | _ :: _ => filter (λ w, tags_overlap tags_query w = true) workflows
  end.
End Search.

(** *** Tasks: [TaskProgressView.get] (lines 435-457) and [generate_task]
    (lines 460-476) *)

Section Tasks.
(** Task identifiers, and the identifier the database gives to a row
    inserted into a table. *)
Context {TaskId : Type} `{EqDecision TaskId}.

(** The columns of [Task] the views read and write. *)
Record Task := {
  task_id : TaskId;
  task_name : string;
  task_status : string;
  task_workflow : string;
  task_parent : option TaskId
}.

Context (new_id : list Task → TaskId).

(** The rows of [Workflows] with their primary key. *)
Context {Workflow : Type} (workflow_id : Workflow → string).

(** [f"{(completed / total) * 100}%"] for [total] other than zero; the
    float arithmetic and its printing stay outside. *)
Context (format_percent : nat → nat → string).

Inductive json :=
  | JStr (s : string)
  | JId (i : TaskId).

(** A [JsonResponse]: the members of its body and its status. *)
Record response := Response {
  body : list (string * json);
  status_code : Z
}.


(** [Task.objects.filter(workflow_id=workflow_id,
    parent_task__isnull=True)]. *)
Definition main_tasks_of (workflow : string) (tasks : list Task) : list Task :=
  filter (λ t, task_workflow t = workflow ∧ task_parent t = None) tasks.

(** The three queries are taken to succeed and to be answered from one
    state of the table: an exception raised by a query, which the
    [except] clause turns into the 500 response, and rows changing between
    the queries are not modelled.  A division by zero would raise
    [ZeroDivisionError], which the [except] clause turns into the 500
    response too. *)
Definition task_progress (workflow : string) (tasks : list Task) : response :=
  let main_tasks := main_tasks_of workflow tasks in
  match main_tasks with
  | [] => Response [("error", JStr "No tasks found for this workflow")] 404
  | _ :: _ =>
      let total_main_tasks := List.length main_tasks in
      let completed_main_tasks :=
        List.length (filter (λ t, task_status t = "Completed") main_tasks) in
      match total_main_tasks with
      | O => Response [("error", JStr "division by zero")] 500
      | S _ =>
          Response
            [("workflow_id", JStr workflow);
             ("progress",
              JStr (format_percent completed_main_tasks total_main_tasks))]
            200
      end
  end.



End Tasks.

(** A directory name as [os.getcwd()] gives it: not empty, and without a
    slash at its end unless it is made of slashes only. *)
Definition normal_dir (dir : string) : bool :=
  match rev (chars dir) with
  | [] => false
  | a :: r => negb (is_char "/" a) || forallb (is_char "/") r
  end.

(** ** More concrete cases *)

Module Cases.

(** Samples that may have no JSON text: [None] stands for a value such as
    a set. *)
Definition dumps_or_fail (s : option Scenario.sample) : py_exception + string :=
  match s with
  | Some s => Scenario.dumps s
  | None => inl (PyError "TypeError")
  end.

Definition picky_dumps : Platform :=
  {| Sample := option Scenario.sample; json_dumps := dumps_or_fail;
     getcwd := Scenario.cwd; rand_name := Scenario.candidate;
     sh := λ _ fs, Exited 0 fs;
     unlink_missing_ok := false;
     Code := string; source_to_code := Scenario.compile;
     exec_code := Scenario.python;
     cache_stem := Scenario.pycache_stem; bytecode := Scenario.pyc;
     dont_write_bytecode := false; load_binary := Scenario.binary_loaders;
     BaseModel := Scenario.base_model |}.

(** A name source that always draws the same name, and a working
    directory in which that name is taken. *)
Definition one_name : Platform :=
  {| Sample := Scenario.sample; json_dumps := Scenario.dumps;
     getcwd := Scenario.cwd; rand_name := λ _, "k3v9x0qa";
     sh := λ _ fs, Exited 0 fs;
     unlink_missing_ok := false;
     Code := string; source_to_code := Scenario.compile;
     exec_code := Scenario.python;
     cache_stem := Scenario.pycache_stem; bytecode := Scenario.pyc;
     dont_write_bytecode := false; load_binary := Scenario.binary_loaders;
     BaseModel := Scenario.base_model |}.

Definition crowded : world :=
  {| files := {[ Scenario.json_path := "{}" ]};
     sys_path := ["/usr/lib/python3.11"];
     stdout := [];
     draws := 0 |}.

(** [Scenario.nested_unit] with its bindings in another order. *)
Definition nested_unit_reordered : module :=
  {| mod_name := mod_name Scenario.nested_unit;
     mod_dict := rev (mod_dict Scenario.nested_unit) |}.

(** Workflows with their key and tags. *)
Record workflow_row := {
  row_id : string;
  row_tags : option (list string)
}.

Definition rows : list workflow_row :=
  [ {| row_id := "w1"; row_tags := Some ["nlp"; "qa"] |};
    {| row_id := "w2"; row_tags := Some ["vision"] |};
    {| row_id := "w3"; row_tags := None |};
    {| row_id := "w4"; row_tags := Some ["a,b"] |} ].


Definition tasks : list (@Task Z) :=
  [ {| task_id := 1%Z; task_name := "batch"; task_status := "Completed";
       task_workflow := "w1"; task_parent := None |};
    {| task_id := 2%Z; task_name := "part"; task_status := "Starting";
       task_workflow := "w1"; task_parent := Some 1%Z |};
    {| task_id := 3%Z; task_name := "batch"; task_status := "Starting";
       task_workflow := "w1"; task_parent := None |};
    {| task_id := 4%Z; task_name := "batch"; task_status := "Completed";
       task_workflow := "w2"; task_parent := None |} ].

(** A stand-in for the printing of the percentage. *)
Definition ratio (completed total : nat) : string :=
  pretty completed +:+ "/" +:+ pretty total.


(** A tool that writes the model and removes its input file. *)
Definition tool_eats_input : Platform :=
  Scenario.platform (λ command fs,
    if decide (command = codegen_command Scenario.json_path Scenario.py_path)
    then Exited 0 (delete Scenario.json_path
                     (<[Scenario.py_path := Scenario.model_source]> fs))
    else Exited 127 fs).

End Cases.

(** * Properties *)

(** ** Strings *)

Lemma string_app_cons a s t : String a s +:+ t = String a (s +:+ t).
Proof. reflexivity. Qed.

Lemma string_app_nil_l s : "" +:+ s = s.
Proof. reflexivity. Qed.

Lemma string_app_nil_r s : s +:+ "" = s.
Proof.
  induction s as [|a s IH]; [reflexivity|].
  by rewrite string_app_cons, IH.
Qed.

Lemma string_app_assoc s t u : (s +:+ t) +:+ u = s +:+ (t +:+ u).
Proof.
  induction s as [|a s IH]; [reflexivity|].
  by rewrite !string_app_cons, IH.
Qed.

(** ** Sorting by name *)

Lemma insert_by_name_perm {A} (x : string * A) l :
  insert_by_name x l ≡ₚ x :: l.
Proof.
  induction l as [|y l IH]; simpl; [done|].
  destruct (String.leb x.1 y.1); [done|].
  rewrite IH. apply Permutation_swap.
Qed.

Lemma sort_by_name_perm {A} (l : list (string * A)) : sort_by_name l ≡ₚ l.
Proof.
  induction l as [|x l IH]; simpl; [done|].
  by rewrite insert_by_name_perm, IH.
Qed.

Lemma insert_by_name_sorted {A} (x : string * A) l :
  StronglySorted by_name l → StronglySorted by_name (insert_by_name x l).
Proof.
  induction 1 as [|y l Hl IH Hy]; simpl.
  - repeat constructor.
  - destruct (String.leb x.1 y.1) eqn:Hxy.
    + assert (by_name x y) as Hle by (unfold by_name, String.le; by rewrite Hxy).
      constructor; [by constructor|].
      constructor; [done|].
      eapply Forall_impl; [exact Hy|].
      intros z Hz. unfold by_name in *. by etrans.
    + assert (by_name y x) as Hle.
      { unfold by_name. destruct (total String.le y.1 x.1) as [|Hc]; [done|].
        unfold String.le in Hc. rewrite Hxy in Hc. done. }
      constructor; [done|].
      rewrite insert_by_name_perm. by constructor.
Qed.

Lemma sort_by_name_sorted {A} (l : list (string * A)) :
  StronglySorted by_name (sort_by_name l).
Proof.
  induction l as [|x l IH]; simpl; [constructor|].
  by apply insert_by_name_sorted.
Qed.

Lemma StronglySorted_omap {A B} (R : relation A) (R' : relation B)
    (f : A → option B) l :
  (∀ x y x' y', f x = Some x' → f y = Some y' → R x y → R' x' y') →
  StronglySorted R l → StronglySorted R' (omap f l).
Proof.
  intros Hf. induction 1 as [|x l Hl IH Hx]; csimpl; [constructor|].
  destruct (f x) as [x'|] eqn:Hfx; [|done].
  constructor; [done|].
  apply Forall_forall. intros y' (y & Hy & Hfy)%list_elem_of_omap.
  rewrite Forall_forall in Hx. eauto.
Qed.

(** ** The introspector *)

Lemma omap_keep_filter_isclass m base_class (l : list (string * pyobj)) :
  omap (keep m base_class) (filter (λ kv, isclass kv.2 = true) l)
  = omap (keep m base_class) l.
Proof.
  induction l as [|[k v] l IH]; [done|].
  rewrite filter_cons. destruct v as [c|r]; simpl.
  - destruct (keep m base_class (k, PyClass c)); [f_equal|]; exact IH.
  - exact IH.
Qed.

Lemma getmembers_perm m predicate :
  getmembers m predicate ≡ₚ filter (λ kv, predicate kv.2 = true) (mod_dict m).
Proof.
  unfold getmembers, dir_items.
  by rewrite sort_by_name_perm, sort_by_name_perm.
Qed.

Lemma qualifying_members_perm m base_class :
  qualifying_members m base_class ≡ₚ declared_qualifying m base_class.
Proof.
  unfold qualifying_members, declared_qualifying.
  rewrite getmembers_perm. by rewrite omap_keep_filter_isclass.
Qed.

Lemma elem_of_qualifying_members m base_class n c :
  (n, c) ∈ qualifying_members m base_class ↔
  (n, PyClass c) ∈ mod_dict m ∧ qualifies m base_class c = true.
Proof.
  rewrite qualifying_members_perm. unfold declared_qualifying.
  rewrite list_elem_of_omap. split.
  - intros ([k v] & Hin & Hk). unfold keep in Hk. simpl in Hk.
    destruct v as [c'|]; [|done].
    destruct (qualifies m base_class c') eqn:Hq; [|done].
    by simplify_eq.
  - intros [Hin Hq]. exists (n, PyClass c). split; [done|].
    unfold keep. simpl. by rewrite Hq.
Qed.

Lemma qualifying_members_sorted m base_class :
  StronglySorted by_name (qualifying_members m base_class).
Proof.
  unfold qualifying_members.
  eapply (StronglySorted_omap by_name by_name); [|apply sort_by_name_sorted].
  intros [k v] [k' v'] x' y' Hx Hy Hle. unfold keep, by_name in *. simpl in *.
  destruct v as [c|]; [|done]. destruct v' as [c'|]; [|done].
  destruct (qualifies m base_class c); [|done].
  destruct (qualifies m base_class c'); [|done].
  by simplify_eq.
Qed.

Lemma fold_add_field anns acc :
  fold_left add_field anns acc
  = acc +:+ concat_strings
      (render_field <$>
         ((λ f, {| name := f.1; type_label := field_type_name f.2 |}) <$> anns)).
Proof.
  revert acc. induction anns as [|[f t] anns IH]; intros acc; simpl.
  - by rewrite string_app_nil_r.
  - rewrite IH. unfold add_field, render_field. simpl.
    by rewrite !string_app_assoc.
Qed.

Lemma fold_add_class m base_class l acc :
  fold_left (add_class m base_class) l acc
  = acc +:+ concat_strings
      ((λ d, nl +:+ render_class d) <$>
         (describe base_class <$> omap (keep m base_class) l)).
Proof.
  revert acc. induction l as [|[k v] l IH]; intros acc; simpl.
  - by rewrite string_app_nil_r.
  - rewrite IH. unfold add_class, keep. simpl.
    destruct v as [c|]; [|done].
    destruct (qualifies m base_class c); [|done].
    simpl. rewrite fold_add_field.
    unfold render_class, describe. simpl.
    by rewrite !string_app_assoc.
Qed.

Lemma class_details_of_extract m base_class :
  class_details_of m base_class
  = concat_strings ((λ d, nl +:+ render_class d) <$> extract m base_class).
Proof.
  unfold class_details_of. by rewrite fold_add_class.
Qed.

Lemma concat_blank_line_separated blocks :
  blocks ≠ [] →
  concat_strings ((λ b, nl +:+ b) <$> blocks)
  = nl +:+ blank_line_separated blocks.
Proof.
  induction blocks as [|b [|b' bs] IH]; intros Hne; [done|..].
  - simpl. by rewrite string_app_nil_r.
  - change (concat_strings ((λ b, nl +:+ b) <$> b :: b' :: bs))
      with ((nl +:+ b) +:+ concat_strings ((λ b, nl +:+ b) <$> b' :: bs)).
    rewrite IH by done.
    change (blank_line_separated (b :: b' :: bs))
      with (b +:+ nl +:+ blank_line_separated (b' :: bs)).
    by rewrite !string_app_assoc.
Qed.

Lemma extract_names m base_class :
  class_name <$> extract m base_class = (qualifying_members m base_class).*1.
Proof.
  unfold extract. rewrite <-list_fmap_compose. by apply list_fmap_ext.
Qed.

(** C2, as stated, fails: a unit that declares [Zeta], [Alpha] and [Model]
    in that order is described in the order [Alpha], [Model], [Zeta]. *)
Lemma descriptors_not_in_declaration_order :
  (declared_qualifying Scenario.nested_unit Scenario.base_model).*1
    = ["Zeta"; "Alpha"; "Model"]
  ∧ class_name <$> extract Scenario.nested_unit Scenario.base_model
    = ["Alpha"; "Model"; "Zeta"]
  ∧ class_name <$> extract Scenario.nested_unit Scenario.base_model
    ≠ (declared_qualifying Scenario.nested_unit Scenario.base_model).*1.
Proof. by vm_compute. Qed.

(** C2, amended: the text returned is the concatenation of the descriptors
    the loop emits, in ascending order of the names the qualifying classes
    are bound to in the unit (the order of [inspect.getmembers]), whatever
    the order of declaration; there is one descriptor for each qualifying
    binding of the unit, a name together with the class it is bound to. *)
Theorem descriptors_in_name_order m base_class :
  class_details_of m base_class
    = concat_strings ((λ d, nl +:+ render_class d) <$> extract m base_class)
  ∧ StronglySorted String.le (class_name <$> extract m base_class)
  ∧ extract m base_class
      ≡ₚ describe base_class <$> declared_qualifying m base_class.
Proof.
  split; [apply class_details_of_extract|]. split.
  - rewrite extract_names.
    apply (StronglySorted_fmap fst by_name String.le); [done|].
    apply qualifying_members_sorted.
  - unfold extract. by rewrite qualifying_members_perm.
Qed.

Lemma describe_bound base_class member :
  describe base_class member = bound_descriptor base_class member.
Proof. reflexivity. Qed.

(** C6, as stated, fails: a unit that declares one class, [Model], and
    binds it to a second name, [Record], is described by two blocks, and
    the header of the second has the name [Record], which is the declared
    name of no class; the text is not the rendering of the descriptors of
    the qualifying classes, whose [class_name] is the declared name,
    whether the class is counted once or once for each of its names. *)
Lemma header_shows_the_bound_name :
  class_details_of (Scenario.alias_unit "tmpp_w81mzt") Scenario.base_model
    = nl +:+ "class Model(BaseModel):" +:+ nl +:+ "  a: int" +:+ nl
      +:+ nl +:+ "class Record(BaseModel):" +:+ nl +:+ "  a: int" +:+ nl
  ∧ cls_name <$> (qualifying_members (Scenario.alias_unit "tmpp_w81mzt")
                    Scenario.base_model).*2
    = ["Model"; "Model"]
  ∧ class_details_of (Scenario.alias_unit "tmpp_w81mzt") Scenario.base_model
    ≠ nl +:+ blank_line_separated
               (render_class
                  <$> (spec_descriptor Scenario.base_model
                         <$> (qualifying_members
                                (Scenario.alias_unit "tmpp_w81mzt")
                                Scenario.base_model).*2))
  ∧ class_details_of (Scenario.alias_unit "tmpp_w81mzt") Scenario.base_model
    ≠ nl +:+ render_class
               (spec_descriptor Scenario.base_model
                  (Scenario.declared "tmpp_w81mzt" 10 "Model"
                     [("a", Scenario.int_type)])).
Proof. by vm_compute. Qed.

(** C6, amended: the text is made of one block per qualifying binding of
    the unit.  A block is the header line [class <name>(<base name>):],
    where [<name>] is the name the class is bound to in the unit, followed
    by one line [  <field>: <type label>] per entry of the class's
    annotations, in their insertion order; the type label is the
    [__name__] of the annotation when it has one and its [repr] otherwise.
    Every block is preceded by an empty line, so that one empty line
    separates two consecutive blocks.  When every qualifying class is
    bound under its declared name, the blocks are the renderings of the
    specification's descriptors, whose [class_name] is the declared
    name. *)
Theorem rendered_descriptor_format m base_class :
  class_details_of m base_class
    = match qualifying_members m base_class with
      | [] => ""
      | members =>
          nl +:+ blank_line_separated
                   (render_class <$> (bound_descriptor base_class <$> members))
      end
  ∧ (∀ member,
       render_class (bound_descriptor base_class member)
       = "class " +:+ member.1 +:+ "(" +:+ cls_name base_class +:+ "):" +:+ nl
           +:+ concat_strings
                 ((λ f, "  " +:+ f.1 +:+ ": "
                          +:+ match ann_name f.2 with
                              | Some n => n
                              | None => ann_repr f.2
                              end +:+ nl)
                    <$> cls_annotations member.2))
  ∧ ((∀ n c, (n, c) ∈ qualifying_members m base_class → n = cls_name c) →
     bound_descriptor base_class <$> qualifying_members m base_class
     = spec_descriptor base_class <$> (qualifying_members m base_class).*2).
Proof.
  split; [|split].
  - rewrite class_details_of_extract. unfold extract.
    rewrite (list_fmap_ext (describe base_class) (bound_descriptor base_class)
               _ (λ _ x _, describe_bound base_class x)).
    destruct (qualifying_members m base_class) as [|d ds] eqn:He; [done|].
    rewrite (list_fmap_compose render_class (λ b, nl +:+ b)).
    by rewrite concat_blank_line_separated.
  - intros member. unfold render_class, bound_descriptor, spec_descriptor.
    simpl. by rewrite <-list_fmap_compose.
  - intros Hnames. rewrite <-list_fmap_compose.
    apply list_fmap_ext. intros i [n c] Hi.
    apply list_elem_of_lookup_2 in Hi. apply Hnames in Hi as ->. done.
Qed.

Lemma rendered_descriptor_format_witness :
  class_details_of Scenario.nested_unit Scenario.base_model
  = nl +:+ blank_line_separated
             (render_class
                <$> (spec_descriptor Scenario.base_model
                       <$> (qualifying_members Scenario.nested_unit
                              Scenario.base_model).*2)).
Proof.
  destruct (rendered_descriptor_format Scenario.nested_unit
              Scenario.base_model) as (Htext & _ & Hspec).
  rewrite <-Hspec.
  - rewrite Htext. by vm_compute.
  - intros n c Hin. apply list_elem_of_In in Hin. vm_compute in Hin.
    destruct Hin as [[= <- <-]|[[= <- <-]|[[= <- <-]|[]]]]; reflexivity.
Defined.

(** C7: every descriptor returned stands for a class bound in the unit
    that is a subclass of the base class and whose [__module__] is the
    unit's [__name__]; a class from another module, the base class among
    them, is never described, even when the unit binds it. *)
Theorem only_unit_subclasses_described m base_class :
  (∀ d, d ∈ extract m base_class →
     ∃ c, d = describe base_class (class_name d, c)
        ∧ (class_name d, PyClass c) ∈ mod_dict m
        ∧ issubclass c base_class = true
        ∧ cls_module c = mod_name m)
  ∧ (∀ n c, cls_module c ≠ mod_name m →
       (n, c) ∉ qualifying_members m base_class)
  ∧ (cls_module base_class ≠ mod_name m →
       ∀ n, (n, base_class) ∉ qualifying_members m base_class).
Proof.
  assert (∀ n c, (n, c) ∈ qualifying_members m base_class →
            (n, PyClass c) ∈ mod_dict m ∧ issubclass c base_class = true
            ∧ cls_module c = mod_name m) as Hmem.
  { intros n c [Hin Hq]%elem_of_qualifying_members.
    unfold qualifies in Hq. apply andb_true_iff in Hq as [Hs Hm].
    by apply bool_decide_eq_true in Hm. }
  split; [|split].
  - intros d ([n c] & -> & Hin)%list_elem_of_fmap.
    exists c. destruct (Hmem _ _ Hin) as (? & ? & ?). done.
  - intros n c Hne Hin. by destruct (Hmem _ _ Hin) as (? & ? & ?).
  - intros Hne n Hin. by destruct (Hmem _ _ Hin) as (? & ? & ?).
Qed.

Lemma only_unit_subclasses_described_witness :
  cls_module Scenario.base_model ≠ mod_name Scenario.nested_unit
  ∧ (("BaseModel", Scenario.base_model)
      ∉ qualifying_members Scenario.nested_unit Scenario.base_model)
  ∧ ("BaseModel", PyClass Scenario.base_model)
      ∈ mod_dict Scenario.nested_unit.
Proof.
  assert (cls_module Scenario.base_model ≠ mod_name Scenario.nested_unit)
    as Hne by (by vm_compute).
  split; [exact Hne|]. split.
  - exact (proj2 (proj2 (only_unit_subclasses_described
                           Scenario.nested_unit Scenario.base_model))
             Hne "BaseModel").
  - apply list_elem_of_In. vm_compute. tauto.
Defined.

(** ** Path arithmetic *)

Lemma chars_app s t : chars (s +:+ t) = app (chars s) (chars t).
Proof.
  unfold chars. induction s as [|a s IH]; [done|].
  rewrite string_app_cons. simpl. by rewrite IH.
Qed.

Lemma of_chars_chars s : of_chars (chars s) = s.
Proof. apply string_of_list_ascii_of_string. Qed.

Lemma chars_of_chars l : chars (of_chars l) = l.
Proof. apply list_ascii_of_string_of_list_ascii. Qed.

Lemma chars_inj s t : chars s = chars t → s = t.
Proof. intros Heq. by rewrite <-(of_chars_chars s), Heq, of_chars_chars. Qed.

Lemma take_until_absent c (l : list ascii) : c ∉ l → take_until c l = l.
Proof.
  induction l as [|a l IH]; [done|]. intros Hc. simpl. unfold is_char.
  rewrite bool_decide_eq_false_2 by (intros ->; apply Hc; by left).
  rewrite IH; [done|]. intros ?. apply Hc. by right.
Qed.

Lemma drop_until_absent c (l : list ascii) : c ∉ l → drop_until c l = [].
Proof.
  induction l as [|a l IH]; [done|]. intros Hc. simpl. unfold is_char.
  rewrite bool_decide_eq_false_2 by (intros ->; apply Hc; by left).
  apply IH. intros ?. apply Hc. by right.
Qed.

Lemma take_until_app c (l1 l2 : list ascii) :
  c ∉ l1 → take_until c (l1 ++ c :: l2)%list = l1.
Proof.
  induction l1 as [|a l1 IH]; intros Hc; simpl; unfold is_char.
  - by rewrite bool_decide_eq_true_2.
  - rewrite bool_decide_eq_false_2 by (intros ->; apply Hc; by left).
    rewrite IH; [done|]. intros ?. apply Hc. by right.
Qed.

Lemma drop_until_app c (l1 l2 : list ascii) :
  c ∉ l1 → drop_until c (l1 ++ c :: l2)%list = c :: l2.
Proof.
  induction l1 as [|a l1 IH]; intros Hc; simpl; unfold is_char.
  - by rewrite bool_decide_eq_true_2.
  - rewrite bool_decide_eq_false_2 by (intros ->; apply Hc; by left).
    apply IH. intros ?. apply Hc. by right.
Qed.

Lemma not_elem_of_rev {A} (x : A) (l : list A) : x ∉ l → x ∉ rev l.
Proof. intros Hx Hin. apply Hx. apply list_elem_of_In, in_rev, list_elem_of_In in Hin. done. Qed.

Lemma is_char_false c a : a ≠ c → is_char c a = false.
Proof. intros. unfold is_char. by apply bool_decide_eq_false_2. Qed.

Lemma is_char_true c : is_char c c = true.
Proof. unfold is_char. by apply bool_decide_eq_true_2. Qed.

(** *** Splitting and suffixes *)

Lemma str_split_nonempty sep s : str_split sep s ≠ [].
Proof.
  destruct s as [|a s]; simpl; [done|].
  destruct (is_char sep a); [done|]. by destruct (str_split sep s).
Qed.

Lemma str_split_no_sep sep s piece :
  piece ∈ str_split sep s → sep ∉ chars piece.
Proof.
  revert piece. induction s as [|a s IH]; intros piece; simpl.
  - intros ->%list_elem_of_singleton. apply not_elem_of_nil.
  - unfold is_char. destruct (bool_decide_reflect (a = sep)) as [->|Hne].
    + intros [->|Hin]%elem_of_cons; [apply not_elem_of_nil|by apply IH].
    + destruct (str_split sep s) as [|p0 ps].
      * intros ->%list_elem_of_singleton.
        intros [?|Hin]%elem_of_cons; [done|by apply elem_of_nil in Hin].
      * intros [->|Hin]%elem_of_cons.
        -- intros [?|Hin]%elem_of_cons; [done|].
           revert Hin. apply IH. by left.
        -- apply IH. by right.
Qed.

Lemma str_split_app sep s t :
  str_split sep (s +:+ String sep t)
  = (str_split sep s ++ str_split sep t)%list.
Proof.
  induction s as [|a s IH].
  - simpl. by rewrite is_char_true.
  - rewrite string_app_cons. simpl. rewrite IH.
    destruct (is_char sep a); [done|].
    pose proof (str_split_nonempty sep s).
    by destruct (str_split sep s).
Qed.

Lemma str_split_absent sep s : sep ∉ chars s → str_split sep s = [s].
Proof.
  induction s as [|a s IH]; intros Hsep; [done|].
  simpl. rewrite is_char_false by (intros ->; apply Hsep; by left).
  rewrite IH; [done|]. intros Hin. apply Hsep. by right.
Qed.

Lemma str_endswith_app s suffix : str_endswith (s +:+ suffix) suffix = true.
Proof.
  apply bool_decide_eq_true_2. exists (chars s). apply chars_app.
Qed.

Lemma str_endswith_pyc s : str_endswith (s +:+ ".pyc") ".py" = false.
Proof.
  apply bool_decide_eq_false_2. intros [k Hk].
  apply (f_equal (@rev ascii)) in Hk.
  rewrite chars_app, !rev_app_distr in Hk.
  by injection Hk.
Qed.

(** *** Joining and splitting paths *)

Lemma os_path_join_suffix a b : ∃ pre, os_path_join a b = pre +:+ b.
Proof.
  assert (∃ pre, a +:+ "/" +:+ b = pre +:+ b) as Hsep
    by (exists (a +:+ "/"); by rewrite string_app_assoc).
  unfold os_path_join.
  repeat match goal with
         | |- context [match ?x with _ => _ end] => destruct x
         end;
    first [exact Hsep | by exists "" | by exists a].
Qed.

Lemma os_path_join_chars dir file :
  "/"%char ∉ chars file → normal_dir dir = true →
  ∃ sep, chars (os_path_join dir file) = (chars dir ++ sep ++ chars file)%list
       ∧ ((sep = [] ∧ ∃ r, rev (chars dir) = "/"%char :: r
                         ∧ forallb (is_char "/") r = true)
          ∨ (sep = ["/"%char] ∧ ∃ a r, rev (chars dir) = a :: r ∧ a ≠ "/"%char)).
Proof.
  intros Hfile Hdir. unfold os_path_join, normal_dir in *.
  destruct (rev (chars dir)) as [|a r] eqn:Hrev; [done|].
  destruct (decide (a = "/"%char)) as [->|Hne].
  - exists []. simpl in Hdir. split.
    + destruct (chars file) as [|b l] eqn:Hf.
      * by rewrite chars_app, Hf.
      * destruct (decide (b = "/"%char)) as [->|Hb].
        { exfalso. apply Hfile. by left. }
        assert (match b with "/"%char => file | _ => dir +:+ file end
                = dir +:+ file) as ->.
        { destruct b as [[] [] [] [] [] [] [] []]; try done. }
        by rewrite chars_app, Hf.
    + left. split; [done|]. by exists r.
  - exists ["/"%char]. split.
    + assert (match a with
              | "/"%char => dir +:+ file
              | _ => dir +:+ "/" +:+ file
              end = dir +:+ "/" +:+ file) as Ha.
      { destruct a as [[] [] [] [] [] [] [] []]; try done. }
      destruct (chars file) as [|b l] eqn:Hf.
      * rewrite Ha, !chars_app, Hf. done.
      * destruct (decide (b = "/"%char)) as [->|Hb].
        { exfalso. apply Hfile. by left. }
        assert (match b with
                | "/"%char => file
                | _ => match a with
                       | "/"%char => dir +:+ file
                       | _ => dir +:+ "/" +:+ file
                       end
                end = dir +:+ "/" +:+ file) as ->.
        { rewrite Ha. destruct b as [[] [] [] [] [] [] [] []]; try done. }
        by rewrite !chars_app, Hf.
    + right. split; [done|]. by exists a, r.
Qed.

Lemma os_path_join_slash dir file :
  "/"%char ∉ chars file → normal_dir dir = true →
  ∃ s, os_path_join dir file = s +:+ String "/" file.
Proof.
  intros Hfile Hdir.
  destruct (os_path_join_chars dir file Hfile Hdir)
    as (sep & Hchars & [(-> & r & Hr & _)|(-> & _)]).
  - exists (of_chars (rev r)). apply chars_inj.
    rewrite Hchars, chars_app, chars_of_chars.
    rewrite <-(rev_involutive (chars dir)), Hr. simpl.
    by rewrite <-app_assoc.
  - exists dir. apply chars_inj. by rewrite Hchars, chars_app.
Qed.

Lemma os_path_split_join dir file :
  "/"%char ∉ chars file → normal_dir dir = true →
  os_path_split (os_path_join dir file) = (dir, file).
Proof.
  intros Hfile Hdir.
  destruct (os_path_join_chars dir file Hfile Hdir) as (sep & Hchars & Hsep).
  unfold os_path_split. fold (chars (os_path_join dir file)).
  rewrite Hchars, !rev_app_distr.
  pose proof (not_elem_of_rev _ _ Hfile) as Hrev.
  destruct Hsep as [(-> & r & Hr & Hall)|(-> & a & r & Hr & Ha)]; simpl;
    rewrite Hr, ?app_nil_r, <-?app_assoc; simpl;
    rewrite take_until_app, drop_until_app by done.
  - simpl. rewrite Hall.
    rewrite <-Hr, !rev_involutive. by rewrite !of_chars_chars.
  - simpl. rewrite !(is_char_false _ a) by done. simpl.
    change (rev r ++ [a])%list with (rev (a :: r)).
    rewrite <-Hr, !rev_involutive. by rewrite !of_chars_chars.
Qed.

Lemma rev_chars_nonempty stem :
  stem ≠ "" → ∃ c before, rev (chars stem) = c :: before.
Proof.
  intros Hne. destruct (rev (chars stem)) as [|c before] eqn:Hr; [|by eauto].
  exfalso. apply Hne. rewrite <-(of_chars_chars stem).
  by rewrite <-(rev_involutive (chars stem)), Hr.
Qed.

Lemma no_slash_in_py_file stem :
  "/"%char ∉ chars stem → "/"%char ∉ chars (stem +:+ ".py").
Proof.
  intros Hslash. rewrite chars_app. intros [?|Hin]%elem_of_app; [done|].
  vm_compute in Hin. by repeat (apply elem_of_cons in Hin as [?|Hin]);
    try by apply elem_of_nil in Hin.
Qed.

Lemma rev_chars_py_file stem :
  rev (chars (stem +:+ ".py"))
  = (["y"%char; "p"%char] ++ "."%char :: rev (chars stem))%list.
Proof. by rewrite chars_app, rev_app_distr. Qed.

Lemma loader_unit_name_py dir stem :
  normal_dir dir = true → stem ≠ "" →
  "/"%char ∉ chars stem → "."%char ∉ chars stem →
  loader_unit_name (os_path_join dir (stem +:+ ".py")) = stem.
Proof.
  intros Hdir Hne Hslash Hdot.
  pose proof (no_slash_in_py_file stem Hslash) as Hfile.
  destruct (rev_chars_nonempty stem Hne) as (c & before & Hstem).
  assert (c ≠ "."%char) as Hc.
  { intros ->. apply (not_elem_of_rev _ _ Hdot). rewrite Hstem. by left. }
  unfold loader_unit_name. rewrite os_path_split_join by done. simpl.
  unfold os_path_splitext_root. rewrite rev_chars_py_file.
  rewrite take_until_app, drop_until_app
    by (intros Hin; by repeat (apply elem_of_cons in Hin as [?|Hin]);
          try by apply elem_of_nil in Hin).
  simpl. rewrite take_until_absent by (by apply not_elem_of_rev).
  rewrite Hstem. simpl. rewrite (is_char_false _ c) by done. simpl.
  change (rev before ++ [c])%list with (rev (c :: before)).
  rewrite <-Hstem, rev_involutive. apply of_chars_chars.
Qed.

Lemma path_name_file s file :
  "/"%char ∉ chars file → file ≠ "" → file ≠ "." →
  path_name (s +:+ String "/" file) = file.
Proof.
  intros Hfile Hne Hdot. unfold path_name.
  rewrite str_split_app, (str_split_absent _ file) by done.
  rewrite filter_app, (filter_cons _ file), decide_True by done.
  by rewrite filter_nil, last_snoc.
Qed.

Lemma path_stem_py dir stem :
  normal_dir dir = true → stem ≠ "" →
  "/"%char ∉ chars stem → "."%char ∉ chars stem →
  path_stem (os_path_join dir (stem +:+ ".py")) = stem.
Proof.
  intros Hdir Hne Hslash Hdot.
  pose proof (no_slash_in_py_file stem Hslash) as Hfile.
  destruct (rev_chars_nonempty stem Hne) as (c & before & Hstem).
  destruct (os_path_join_slash dir _ Hfile Hdir) as [s ->].
  unfold path_stem. rewrite path_name_file; [|done|by destruct stem|].
  2:{ intros Heq. apply (f_equal (λ x, rev (chars x))) in Heq.
      rewrite rev_chars_py_file in Heq. by injection Heq. }
  rewrite rev_chars_py_file.
  rewrite take_until_app, drop_until_app
    by (intros Hin; by repeat (apply elem_of_cons in Hin as [?|Hin]);
          try by apply elem_of_nil in Hin).
  rewrite Hstem.
  change (rev before ++ [c])%list with (rev (c :: before)).
  rewrite <-Hstem, rev_involutive. apply of_chars_chars.
Qed.

(** X5: for a file [<stem>.py] in a directory, where the stem is not empty
    and has neither dot nor slash, the loader and the introspector derive the
    same unit name, the stem, and the directory the loader registers is the
    directory given: the two loads of one generated file run it under one
    name. *)
Theorem unit_names_agree dir stem :
  normal_dir dir = true →
  stem ≠ "" →
  "/"%char ∉ chars stem →
  "."%char ∉ chars stem →
  loader_unit_name (os_path_join dir (stem +:+ ".py"))
    = path_stem (os_path_join dir (stem +:+ ".py"))
  ∧ path_stem (os_path_join dir (stem +:+ ".py")) = stem
  ∧ (os_path_split (os_path_join dir (stem +:+ ".py"))).1 = dir.
Proof.
  intros Hdir Hne Hslash Hdot.
  rewrite loader_unit_name_py, path_stem_py by done.
  split; [done|]. split; [done|].
  rewrite os_path_split_join; [done| |done].
  by apply no_slash_in_py_file.
Qed.

(** ** The pipeline *)

Section PipelineFacts.
Context {P : Platform}.

Lemma bind_unfold {A B} (m : M A) (k : A → M B) w :
  (m ≫= k) w =
  match m w with
  | (Return a, w') => k a w'
  | (Raise e, w') => (Raise e, w')
  | (Blocked, w') => (Blocked, w')
  end.
Proof. reflexivity. Qed.

Lemma world_eq w1 w2 :
  files w1 = files w2 → sys_path w1 = sys_path w2 →
  stdout w1 = stdout w2 → draws w1 = draws w2 → w1 = w2.
Proof. destruct w1, w2. simpl. by intros -> -> -> ->. Qed.

Lemma set_files_id w : set_files (λ fs, fs) w = w.
Proof. by destruct w. Qed.

Lemma set_files_delete_absent f w :
  files w !! f = None → set_files (delete f) w = w.
Proof. intros Hf. apply world_eq; try done. simpl. by apply delete_id. Qed.

(** *** Temporary files *)

Lemma mkstemp_inner_spec n dir pre suf w :
  match mkstemp_inner n dir pre suf w with
  | (Return f, w') =>
      files w !! f = None ∧ files w' = <[f := ""]> (files w)
      ∧ sys_path w' = sys_path w ∧ stdout w' = stdout w
  | (Raise e, w') =>
      files w' = files w ∧ sys_path w' = sys_path w ∧ stdout w' = stdout w
  | (Blocked, _) => False
  end.
Proof.
  revert w. induction n as [|n IH]; intros w; simpl; [done|].
  destruct (files w !! _) eqn:Hf.
  - specialize (IH (set_draws S w)).
    destruct (mkstemp_inner n dir pre suf (set_draws S w)) as [[f|e|] w'];
      done.
  - done.
Qed.

Lemma mkstemp_inner_name n dir pre suf w f w' :
  mkstemp_inner n dir pre suf w = (Return f, w') →
  ∃ k, f = os_path_join dir (pre +:+ rand_name k +:+ suf).
Proof.
  revert w. induction n as [|n IH]; intros w; simpl; [done|].
  destruct (files w !! _) eqn:Hf.
  - apply IH.
  - intros [= <- _]. by eexists.
Qed.

(** The way out of a [with] block removes the file, whatever becomes of
    the result. *)
Lemma leave_spec {A} f (r : outcome A) w :
  r ≠ Blocked →
  ∃ r', leave f (r, w) = (r', set_files (delete f) w)
      ∧ r' ≠ Blocked
      ∧ (is_Some (files w !! f) ∨ unlink_missing_ok = true → r' = r).
Proof.
  intros Hr. unfold leave, unlink_on_exit.
  destruct (files w !! f) as [c|] eqn:Hf.
  - exists r. by destruct r.
  - rewrite (set_files_delete_absent f w Hf).
    destruct unlink_missing_ok.
    + exists r. by destruct r.
    + exists (Raise (PyError "FileNotFoundError")).
      split; [by destruct r|]. split; [done|].
      intros [[c Hc]|?]; done.
Qed.


Lemma leave_present {A} f (r : outcome A) w :
  r ≠ Blocked → is_Some (files w !! f) →
  leave f (r, w) = (r, set_files (delete f) w).
Proof.
  intros Hr [c Hc]. unfold leave, unlink_on_exit. rewrite Hc. by destruct r.
Qed.

Lemma leave_absent {A} f (r : outcome A) w :
  r ≠ Blocked → files w !! f = None →
  leave f (r, w)
  = (if unlink_missing_ok then r else Raise (PyError "FileNotFoundError"), w).
Proof.
  intros Hr Hf. unfold leave, unlink_on_exit. rewrite Hf.
  destruct r; [| |done]; by destruct unlink_missing_ok.
Qed.

(** *** The bytecode cache *)

Lemma cache_from_source_not_source path q :
  str_endswith path ".py" = true → cache_from_source q ≠ path.
Proof.
  intros Hpy <-. unfold cache_from_source in Hpy.
  by rewrite str_endswith_pyc in Hpy.
Qed.

Lemma cache_bytecode_update path text code w :
  source_to_code text path = inr code →
  cache_bytecode path text code w = set_files (cache_update path text) w.
Proof.
  intros Hc. unfold cache_bytecode, cache_update. rewrite Hc.
  destruct dont_write_bytecode; [by rewrite set_files_id|done].
Qed.

Lemma cache_update_lookup path text fs f :
  f ≠ cache_from_source path → cache_update path text fs !! f = fs !! f.
Proof.
  intros Hf. unfold cache_update.
  destruct (source_to_code text path); [done|].
  destruct dont_write_bytecode; [done|]. by rewrite lookup_insert_ne.
Qed.

Lemma cache_update_is_Some path text fs f :
  is_Some (fs !! f) → is_Some (cache_update path text fs !! f).
Proof.
  intros Hf. unfold cache_update.
  destruct (source_to_code text path); [done|].
  destruct dont_write_bytecode; [done|].
  rewrite lookup_insert_is_Some. destruct (decide (cache_from_source path = f)); auto.
Qed.

Lemma cache_update_idemp path text fs :
  cache_update path text (cache_update path text fs)
  = cache_update path text fs.
Proof.
  unfold cache_update.
  destruct (source_to_code text path); [done|].
  destruct dont_write_bytecode; [done|]. by rewrite insert_insert_eq.
Qed.


(** *** Loading *)

Lemma load_unit_source unit path w text :
  str_endswith path ".py" = true →
  files w !! path = Some text →
  load_unit unit path w
  = (match source_to_code text path with
     | inl e => Raise e
     | inr code =>
         match exec_code unit path code with
         | inl e => Raise e
         | inr m => Return m
         end
     end, set_files (cache_update path text) w).
Proof.
  intros Hpy Hf. unfold load_unit, load_source. rewrite Hpy, Hf.
  destruct (source_to_code text path) as [e|code] eqn:Hc.
  - unfold cache_update. rewrite Hc. by rewrite set_files_id.
  - rewrite (cache_bytecode_update _ _ _ _ Hc).
    by destruct (exec_code unit path code).
Qed.

Lemma load_unit_missing unit path w :
  str_endswith path ".py" = true →
  files w !! path = None →
  load_unit unit path w = (Raise (PyError "FileNotFoundError"), w).
Proof.
  intros Hpy Hf. unfold load_unit, load_source. by rewrite Hpy, Hf.
Qed.

(** Whatever the path, a load ends, and all it does to the world is to
    write the cache file. *)
Lemma load_unit_world unit path w :
  (load_unit unit path w).1 ≠ Blocked
  ∧ (load_unit unit path w).2
    = set_files (write_all (cache_writes [path] (files w))) w.
Proof.
  unfold load_unit, load_source, cache_writes, cache_bytecode. simpl.
  destruct (str_endswith path ".py"); simpl.
  - destruct dont_write_bytecode; simpl;
      (destruct (files w !! path) as [text|];
         [|split; [done|by destruct w]]);
      (destruct (source_to_code text path) as [e|code];
         [split; [done|by destruct w]|]);
      destruct (exec_code unit path code); split; try done; by destruct w.
  - destruct (load_binary unit path (files w !! path)) as [[e|m]|];
      split; try done; by destruct w.
Qed.

Lemma files_register d w : files (register d w) = files w.
Proof. unfold register. by destruct (bool_decide _). Qed.

Lemma stdout_register d w : stdout (register d w) = stdout w.
Proof. unfold register. by destruct (bool_decide _). Qed.

Lemma draws_register d w : draws (register d w) = draws w.
Proof. unfold register. by destruct (bool_decide _). Qed.

Lemma import_model_unfold path w :
  import_model_from_generated_file path w
  = match load_unit (loader_unit_name path) path
            (register (os_path_split path).1 w) with
    | (Return m, w') => (Return (getattr m "Model"), w')
    | (Raise e, w') => (Raise e, w')
    | (Blocked, w') => (Blocked, w')
    end.
Proof.
  unfold import_model_from_generated_file, loader_unit_name, register.
  destruct (os_path_split path) as [directory tail]; simpl.
  rewrite bind_unfold. unfold sys_path_contains at 1.
  destruct (bool_decide (directory ∈ sys_path w));
    rewrite bind_unfold; simpl; rewrite bind_unfold;
    by destruct (load_unit _ path _) as [[?|?|] ?].
Qed.

Lemma get_classes_unfold path base_class w :
  get_classes_from_module path base_class w
  = match load_unit (path_stem path) path w with
    | (Return m, w') => (Return (class_details_of m base_class), w')
    | (Raise e, w') => (Raise e, w')
    | (Blocked, w') => (Blocked, w')
    end.
Proof.
  unfold get_classes_from_module, import_module_from_path.
  rewrite bind_unfold. by destruct (load_unit _ path w) as [[?|?|] ?].
Qed.

Lemma import_model_spec path w text :
  str_endswith path ".py" = true →
  files w !! path = Some text →
  import_model_from_generated_file path w
  = (match source_to_code text path with
     | inl e => Raise e
     | inr code =>
         match exec_code (loader_unit_name path) path code with
         | inl e => Raise e
         | inr m => Return (getattr m "Model")
         end
     end,
     set_files (cache_update path text) (register (os_path_split path).1 w)).
Proof.
  intros Hpy Hf. rewrite import_model_unfold.
  rewrite (load_unit_source _ _ _ text Hpy) by (by rewrite files_register).
  destruct (source_to_code text path) as [e|code]; [done|].
  by destruct (exec_code _ path code).
Qed.

Lemma import_model_world path w :
  (import_model_from_generated_file path w).1 ≠ Blocked
  ∧ (import_model_from_generated_file path w).2
    = set_files (write_all (cache_writes [path] (files w)))
        (register (os_path_split path).1 w).
Proof.
  rewrite import_model_unfold.
  destruct (load_unit_world (loader_unit_name path) path
              (register (os_path_split path).1 w)) as [Hr Hw].
  rewrite files_register in Hw.
  by destruct (load_unit _ path _) as [[?|?|] ?].
Qed.

(** *** The generator *)

Lemma run_generator_spec cmd w :
  run_generator cmd w
  = match sh cmd (files w) with
    | Hangs => (Blocked, w)
    | Exited rc fs' =>
        (Return (),
         set_stdout (λ out, app out [generator_report rc cmd])
           (set_files (λ _, fs') w))
    end.
Proof.
  unfold run_generator, try_except_CalledProcessError, generator_report.
  rewrite bind_unfold. unfold subprocess_run.
  destruct (sh cmd (files w)) as [rc fs'|]; [|done].
  simpl. by destruct (rc =? 0)%Z.
Qed.

Lemma set_files_cache_update_twice path text w :
  set_files (cache_update path text) (set_files (cache_update path text) w)
  = set_files (cache_update path text) w.
Proof. apply world_eq; try done. simpl. apply cache_update_idemp. Qed.

Lemma generate_and_load_spec j p w0 :
  str_endswith p ".py" = true →
  generate_and_load j p w0
  = match sh (codegen_command j p) (files w0) with
    | Hangs => (Blocked, w0)
    | Exited rc fs' =>
        (match fs' !! p with
         | None => Raise (PyError "FileNotFoundError")
         | Some text => load_and_describe p text
         end,
         set_files (match fs' !! p with
                    | None => λ fs, fs
                    | Some text => cache_update p text
                    end)
           (register (os_path_split p).1
              (set_stdout (λ out, app out
                             [generator_report rc (codegen_command j p)])
                 (set_files (λ _, fs') w0))))
    end.
Proof.
  intros Hpy. unfold generate_and_load.
  rewrite bind_unfold, run_generator_spec.
  destruct (sh _ (files w0)) as [rc fs'|]; [|done].
  rewrite bind_unfold.
  set (w1 := set_stdout _ _).
  assert (files w1 = fs') as Hf1 by done.
  destruct (fs' !! p) as [text|] eqn:Hp.
  - rewrite (import_model_spec _ _ text Hpy) by congruence.
    unfold load_and_describe.
    destruct (source_to_code text p) as [e|code] eqn:Hc; [done|].
    destruct (exec_code (loader_unit_name p) p code) as [e|m1]; [done|].
    rewrite bind_unfold, get_classes_unfold.
    rewrite (load_unit_source _ _ _ text Hpy); last first.
    { simpl. rewrite cache_update_lookup, files_register; [congruence|].
      intros Heq. by apply (cache_from_source_not_source p p Hpy). }
    rewrite Hc, set_files_cache_update_twice.
    by destruct (exec_code (path_stem p) p code).
  - rewrite import_model_unfold, load_unit_missing;
      [|done|by rewrite files_register, Hf1].
    by rewrite set_files_id.
Qed.

(** *** The call *)

Lemma create_pydantic_model_prepared sample w j p w0 :
  prepare sample w = (Return (j, p), w0) →
  create_pydantic_model sample w = leave j (leave p (generate_and_load j p w0)).
Proof.
  unfold prepare, create_pydantic_model, with_NamedTemporaryFile.
  rewrite bind_unfold.
  destruct (mkstemp_inner TMP_MAX getcwd "tmp" ".json" w) as [[j'|e|] w1];
    [|done..].
  rewrite !bind_unfold.
  destruct (json_dump sample j' w1) as [[[]|e|] w2]; [|done..].
  rewrite bind_unfold.
  destruct (mkstemp_inner TMP_MAX getcwd "tmp" ".py" w2) as [[p'|e|] w3];
    [|done..].
  by intros [= -> -> ->].
Qed.

Lemma prepare_spec sample w j p w0 :
  prepare sample w = (Return (j, p), w0) →
  files w !! j = None ∧ files w !! p = None ∧ j ≠ p
  ∧ sys_path w0 = sys_path w ∧ stdout w0 = stdout w
  ∧ ∃ text, json_dumps sample = inr text
      ∧ files w0 = <[p := ""]> (<[j := text]> (files w)).
Proof.
  unfold prepare. rewrite bind_unfold.
  pose proof (mkstemp_inner_spec TMP_MAX getcwd "tmp" ".json" w) as Hj.
  destruct (mkstemp_inner TMP_MAX getcwd "tmp" ".json" w) as [[j'|e|] w1];
    [|done..].
  destruct Hj as (Hj & Hf1 & Hs1 & Ho1).
  rewrite bind_unfold. unfold json_dump.
  destruct (json_dumps sample) as [e|text]; [done|].
  rewrite bind_unfold.
  set (w2 := set_files (insert j' text) w1).
  pose proof (mkstemp_inner_spec TMP_MAX getcwd "tmp" ".py" w2) as Hp.
  destruct (mkstemp_inner TMP_MAX getcwd "tmp" ".py" w2) as [[p'|e|] w3];
    [|done..].
  destruct Hp as (Hp & Hf3 & Hs3 & Ho3).
  intros [= -> -> ->]. subst w2. simpl in *.
  rewrite Hf1, insert_insert_eq in Hp, Hf3.
  assert (j ≠ p) as Hne.
  { intros ->. by rewrite lookup_insert_eq in Hp. }
  rewrite lookup_insert_ne in Hp by done.
  repeat split; try done; try congruence.
  by exists text.
Qed.

Lemma prepare_source_name sample w j p w0 :
  prepare sample w = (Return (j, p), w0) →
  ∃ k, p = os_path_join getcwd ("tmp" +:+ rand_name k +:+ ".py").
Proof.
  unfold prepare. rewrite bind_unfold.
  destruct (mkstemp_inner TMP_MAX getcwd "tmp" ".json" w) as [[j'|e|] w1];
    [|done..].
  rewrite !bind_unfold. unfold json_dump.
  destruct (json_dumps sample) as [e|text]; [done|].
  rewrite bind_unfold.
  destruct (mkstemp_inner TMP_MAX getcwd "tmp" ".py" _) as [[p'|e|] w3] eqn:Hp;
    [|done..].
  intros [= _ -> _]. by eapply mkstemp_inner_name.
Qed.

(** The source file has the suffix the source loader takes. *)
Lemma prepare_source_py sample w j p w0 :
  prepare sample w = (Return (j, p), w0) → str_endswith p ".py" = true.
Proof.
  intros [k ->]%prepare_source_name.
  destruct (os_path_join_suffix getcwd ("tmp" +:+ rand_name k +:+ ".py"))
    as [pre ->].
  rewrite <-!string_app_assoc. apply str_endswith_app.
Qed.

Lemma load_and_describe_returns p text : load_and_describe p text ≠ Blocked.
Proof.
  unfold load_and_describe.
  destruct (source_to_code text p) as [e|code]; [done|].
  destruct (exec_code (loader_unit_name p) p code); [done|].
  by destruct (exec_code (path_stem p) p code).
Qed.

(** A run in which the tool exits: the result is that of the two loads,
    unless a temporary file is gone when its [with] block is left; the
    files are those the loads leave, without the two temporary files. *)
Lemma create_pydantic_model_exited sample w j p w0 rc fs' :
  prepare sample w = (Return (j, p), w0) →
  sh (codegen_command j p) (files w0) = Exited rc fs' →
  ∃ o, create_pydantic_model sample w
       = (o,
          set_files (delete j)
            (set_files (delete p)
               (set_files (match fs' !! p with
                           | None => λ fs, fs
                           | Some text => cache_update p text
                           end)
                  (register (os_path_split p).1
                     (set_stdout
                        (λ out, app out
                           [generator_report rc (codegen_command j p)])
                        (set_files (λ _, fs') w0))))))
     ∧ o ≠ Blocked
     ∧ (is_Some (fs' !! j) → is_Some (fs' !! p) →
        o = match fs' !! p with
            | None => Raise (PyError "FileNotFoundError")
            | Some text => load_and_describe p text
            end).
Proof.
  intros Hprep Hsh.
  rewrite (create_pydantic_model_prepared _ _ _ _ _ Hprep).
  rewrite (generate_and_load_spec _ _ _ (prepare_source_py _ _ _ _ _ Hprep)).
  rewrite Hsh.
  apply prepare_spec in Hprep as (_ & _ & Hne & _).
  set (r := match fs' !! p with Some _ => _ | None => _ end).
  set (W := set_files (match fs' !! p with Some _ => _ | None => _ end) _).
  assert (r ≠ Blocked) as Hr.
  { subst r. destruct (fs' !! p); [apply load_and_describe_returns|done]. }
  assert (∀ f, is_Some (fs' !! f) → is_Some (files W !! f)) as Hkept.
  { intros f Hf. subst W. simpl. rewrite files_register. simpl.
    destruct (fs' !! p); [by apply cache_update_is_Some|done]. }
  destruct (leave_spec p r W Hr) as (r1 & -> & Hr1 & Hp1).
  destruct (leave_spec j r1 (set_files (delete p) W) Hr1)
    as (r2 & -> & Hr2 & Hj2).
  exists r2. split; [done|]. split; [done|].
  intros Hj Hp. rewrite Hj2, Hp1; [done|left; by apply Hkept|].
  left. simpl. rewrite lookup_delete_ne by done. by apply Hkept.
Qed.

(** With both temporary files in place after the tool has exited, the
    result is that of the loads. *)
Lemma create_pydantic_model_loaded sample w j p w0 rc fs' text :
  prepare sample w = (Return (j, p), w0) →
  sh (codegen_command j p) (files w0) = Exited rc fs' →
  is_Some (fs' !! j) →
  fs' !! p = Some text →
  ∃ w', create_pydantic_model sample w = (load_and_describe p text, w')
      ∧ files w' = delete j (delete p (cache_update p text fs'))
      ∧ stdout w'
        = app (stdout w) [generator_report rc (codegen_command j p)].
Proof.
  intros Hprep Hsh Hj Hp.
  destruct (create_pydantic_model_exited _ _ _ _ _ _ _ Hprep Hsh)
    as (o & -> & _ & Ho).
  rewrite Hp in Ho. rewrite Ho by (by rewrite ?Hp). rewrite Hp.
  eexists. split; [done|].
  apply prepare_spec in Hprep as (_ & _ & _ & _ & Hout & _).
  simpl. rewrite files_register, stdout_register. simpl.
  by rewrite Hout.
Qed.

Lemma absent_after_cleanup (fs : gmap string string) j p :
  delete j (delete p fs) !! j = None ∧ delete j (delete p fs) !! p = None.
Proof.
  split; [apply lookup_delete_eq|].
  destruct (decide (j = p)) as [->|Hne]; [apply lookup_delete_eq|].
  rewrite lookup_delete_ne by done. apply lookup_delete_eq.
Qed.


Lemma prepare_returns sample w w0 : prepare sample w ≠ (Blocked, w0).
Proof.
  unfold prepare. rewrite bind_unfold.
  pose proof (mkstemp_inner_spec TMP_MAX getcwd "tmp" ".json" w) as Hj.
  destruct (mkstemp_inner TMP_MAX getcwd "tmp" ".json" w) as [[j|e1|] w1];
    [|done..].
  rewrite !bind_unfold. unfold json_dump.
  destruct (json_dumps sample) as [e1|text]; [done|].
  rewrite bind_unfold.
  set (w2 := set_files (insert j text) w1).
  pose proof (mkstemp_inner_spec TMP_MAX getcwd "tmp" ".py" w2) as Hp.
  by destruct (mkstemp_inner TMP_MAX getcwd "tmp" ".py" w2) as [[p|e1|] w3].
Qed.



(** C1, amended: when the tool exits with a nonzero status (under
    [shell=True] a missing tool is such an exit, status 127), the
    [CalledProcessError] is caught and printed and the call goes on to load
    the output file as after a success: if that file loads, and the tool
    has left its input file in place, the call returns the ordinary pair of
    the unit's [Model] attribute (or [None]) and the descriptor text, and
    neither temporary file is left.  No failure kind is returned. *)
Theorem tool_failure_is_logged_then_ignored
    sample w j p w0 rc fs' text code m1 m2 :
  prepare sample w = (Return (j, p), w0) →
  sh (codegen_command j p) (files w0) = Exited rc fs' →
  rc ≠ 0%Z →
  is_Some (fs' !! j) →
  fs' !! p = Some text →
  source_to_code text p = inr code →
  exec_code (loader_unit_name p) p code = inr m1 →
  exec_code (path_stem p) p code = inr m2 →
  ∃ w', create_pydantic_model sample w
        = (Return (getattr m1 "Model", class_details_of m2 BaseModel), w')
      ∧ stdout w'
        = app (stdout w)
            [[PStr "An error occurred while generating the pydantic model:";
              PExc (CalledProcessError rc (codegen_command j p))]]
      ∧ files w' !! j = None
      ∧ files w' !! p = None.
Proof.
  intros Hprep Hsh Hrc Hj Hp Hc H1 H2.
  destruct (create_pydantic_model_loaded _ _ _ _ _ _ _ _ Hprep Hsh Hj Hp)
    as (w' & -> & Hf & Ho).
  exists w'. unfold load_and_describe. rewrite Hc, H1, H2.
  split; [done|]. split.
  - rewrite Ho. unfold generator_report. by destruct (Z.eqb_spec rc 0).
  - rewrite Hf. apply absent_after_cleanup.
Qed.

(** C4, amended: when the text left in the source file cannot be loaded,
    because it does not compile or because its body raises, the exception
    travels out of [import_model_from_generated_file] and, the tool having
    left its input file in place, out of [create_pydantic_model],
    unhandled; neither temporary file is left.  No [LoadFailed] value is
    produced. *)
Theorem load_failure_escapes sample w j p w0 rc fs' text e :
  prepare sample w = (Return (j, p), w0) →
  sh (codegen_command j p) (files w0) = Exited rc fs' →
  is_Some (fs' !! j) →
  fs' !! p = Some text →
  (source_to_code text p = inl e
   ∨ ∃ code, source_to_code text p = inr code
           ∧ exec_code (loader_unit_name p) p code = inl e) →
  (∀ w1, files w1 !! p = Some text →
     (import_model_from_generated_file p w1).1 = Raise e)
  ∧ ∃ w', create_pydantic_model sample w = (Raise e, w')
        ∧ files w' !! j = None
        ∧ files w' !! p = None.
Proof.
  intros Hprep Hsh Hj Hp He. split.
  - intros w1 Hw1.
    rewrite (import_model_spec _ _ text (prepare_source_py _ _ _ _ _ Hprep) Hw1).
    destruct He as [->|(code & -> & ->)]; done.
  - destruct (create_pydantic_model_loaded _ _ _ _ _ _ _ _ Hprep Hsh Hj Hp)
      as (w' & -> & Hf & Ho).
    exists w'. unfold load_and_describe. split.
    + destruct He as [->|(code & -> & ->)]; done.
    + rewrite Hf. apply absent_after_cleanup.
Qed.

(** C5, amended: the tool is run without a timeout.  If it never exits,
    the call never returns: the caller stays blocked, nothing terminates
    the subprocess, and both temporary files remain in the working
    directory. *)
Theorem hanging_tool_blocks_the_call sample w j p w0 :
  prepare sample w = (Return (j, p), w0) →
  sh (codegen_command j p) (files w0) = Hangs →
  create_pydantic_model sample w = (Blocked, w0)
  ∧ is_Some (files w0 !! j) ∧ is_Some (files w0 !! p).
Proof.
  intros Hprep Hsh.
  rewrite (create_pydantic_model_prepared _ _ _ _ _ Hprep).
  rewrite (generate_and_load_spec _ _ _ (prepare_source_py _ _ _ _ _ Hprep)).
  rewrite Hsh. split; [done|].
  apply prepare_spec in Hprep as (_ & _ & Hne & _ & _ & text & _ & ->).
  rewrite lookup_insert_eq, lookup_insert_ne, lookup_insert_eq by done.
  eauto.
Qed.

(** C8, amended: when the loaded unit binds no top-level name [Model], the
    lookup of line 93 yields [None] without raising and without printing,
    and the pipeline returns normally, with [None] in the place of the
    model and the descriptor text beside it.  The absence is not
    reported: the only line printed during the call is the one about the
    tool's exit. *)
Theorem missing_Model_is_not_reported
    sample w j p w0 rc fs' text code m1 m2 :
  prepare sample w = (Return (j, p), w0) →
  sh (codegen_command j p) (files w0) = Exited rc fs' →
  is_Some (fs' !! j) →
  fs' !! p = Some text →
  source_to_code text p = inr code →
  exec_code (loader_unit_name p) p code = inr m1 →
  exec_code (path_stem p) p code = inr m2 →
  dict_get (mod_dict m1) "Model" = None →
  (∀ w1, files w1 !! p = Some text →
     (import_model_from_generated_file p w1).1 = Return None
     ∧ stdout (import_model_from_generated_file p w1).2 = stdout w1)
  ∧ ∃ w', create_pydantic_model sample w
          = (Return (None, class_details_of m2 BaseModel), w')
        ∧ stdout w'
          = app (stdout w) [generator_report rc (codegen_command j p)].
Proof.
  intros Hprep Hsh Hj Hp Hc H1 H2 Hm. split.
  - intros w1 Hw1.
    rewrite (import_model_spec _ _ text (prepare_source_py _ _ _ _ _ Hprep) Hw1).
    rewrite Hc, H1. unfold getattr. rewrite Hm.
    split; [done|]. simpl. apply stdout_register.
  - destruct (create_pydantic_model_loaded _ _ _ _ _ _ _ _ Hprep Hsh Hj Hp)
      as (w' & -> & Hf & Ho).
    exists w'. unfold load_and_describe. rewrite Hc, H1, H2.
    unfold getattr. by rewrite Hm.
Qed.

(** *** Sequences of loader calls *)

Lemma write_all_app ws1 ws2 fs :
  write_all (ws1 ++ ws2) fs = write_all ws2 (write_all ws1 fs).
Proof. unfold write_all. apply fold_left_app. Qed.

Lemma write_all_union ws fs : write_all ws fs = write_all ws ∅ ∪ fs.
Proof.
  revert fs. induction ws as [|[k v] ws IH]; intros fs; simpl.
  - by rewrite (left_id_L ∅ (∪)).
  - rewrite IH, (IH (<[k:=v]> ∅)).
    rewrite <-(assoc_L (∪)). f_equal.
    by rewrite <-insert_union_l, (left_id_L ∅ (∪)).
Qed.

Lemma write_all_twice ws fs : write_all ws (write_all ws fs) = write_all ws fs.
Proof.
  rewrite (write_all_union ws (write_all ws fs)), (write_all_union ws fs).
  by rewrite (assoc_L (∪)), (idemp_L (∪)).
Qed.

Lemma write_all_lookup_ne ws fs f :
  f ∉ ws.*1 → write_all ws fs !! f = fs !! f.
Proof.
  revert fs. induction ws as [|[k v] ws IH]; intros fs Hf; simpl; [done|].
  rewrite fmap_cons in Hf. apply not_elem_of_cons in Hf as [Hk Hf].
  rewrite IH by done. by apply lookup_insert_ne.
Qed.

Lemma cache_writes_keys paths fs k :
  k ∈ (cache_writes paths fs).*1 → ∃ q, k = cache_from_source q.
Proof.
  unfold cache_writes.
  intros ([k' v] & -> & Hin)%list_elem_of_fmap.
  apply list_elem_of_In, in_flat_map in Hin as (path & _ & Hin).
  destruct (str_endswith path ".py" && negb dont_write_bytecode);
    [|done].
  destruct (fs !! path) as [text|]; [|done].
  destruct (source_to_code text path); [done|].
  destruct Hin as [[= <- _]|[]]. by eexists.
Qed.

Lemma cache_writes_ext paths fs1 fs2 :
  (∀ path, str_endswith path ".py" = true → fs1 !! path = fs2 !! path) →
  cache_writes paths fs1 = cache_writes paths fs2.
Proof.
  intros Hagree. unfold cache_writes.
  induction paths as [|path paths IH]; [done|].
  simpl. rewrite IH. f_equal.
  destruct (str_endswith path ".py") eqn:Hpy; [|done].
  by rewrite (Hagree path Hpy).
Qed.

(** The cache files are no source files: writing them changes nothing of
    what later loads write. *)
Lemma cache_writes_written paths paths' fs :
  cache_writes paths (write_all (cache_writes paths' fs) fs)
  = cache_writes paths fs.
Proof.
  apply cache_writes_ext. intros path Hpy.
  apply write_all_lookup_ne. intros [q ->]%cache_writes_keys.
  by apply (cache_from_source_not_source _ q Hpy).
Qed.

Lemma cache_writes_cons path paths fs :
  cache_writes (path :: paths) fs
  = (cache_writes [path] fs ++ cache_writes paths fs)%list.
Proof. unfold cache_writes. simpl. by rewrite app_nil_r. Qed.

Lemma load_calls_cons path paths w :
  load_calls (path :: paths) w
  = load_calls paths (import_model_from_generated_file path w).2.
Proof. reflexivity. Qed.

Lemma load_calls_app paths1 paths2 w :
  load_calls (paths1 ++ paths2) w = load_calls paths2 (load_calls paths1 w).
Proof. unfold load_calls. by rewrite fold_left_app. Qed.

Lemma sys_path_import path w :
  sys_path (import_model_from_generated_file path w).2
  = sys_path (register (os_path_split path).1 w).
Proof. by rewrite (proj2 (import_model_world path w)). Qed.

Lemma load_calls_files paths w :
  files (load_calls paths w)
  = write_all (cache_writes paths (files w)) (files w).
Proof.
  revert w. induction paths as [|path paths IH]; intros w; [done|].
  rewrite load_calls_cons, IH, (proj2 (import_model_world path w)).
  cbn [files set_files]. rewrite files_register.
  by rewrite cache_writes_written, (cache_writes_cons path paths),
    write_all_app.
Qed.

Lemma load_calls_output paths w :
  stdout (load_calls paths w) = stdout w
  ∧ draws (load_calls paths w) = draws w.
Proof.
  revert w. induction paths as [|path paths IH]; intros w; [done|].
  rewrite load_calls_cons.
  destruct (IH (import_model_from_generated_file path w).2) as [-> ->].
  rewrite (proj2 (import_model_world path w)). simpl.
  by rewrite stdout_register, draws_register.
Qed.

Lemma load_calls_sys_path paths w :
  ∃ added,
    sys_path (load_calls paths w) = app (sys_path w) added
    ∧ NoDup added
    ∧ ∀ d, d ∈ added →
        (d ∉ sys_path w)
        ∧ ∃ path, path ∈ paths ∧ d = (os_path_split path).1.
Proof.
  revert w. induction paths as [|path paths IH]; intros w.
  { exists []. rewrite app_nil_r. split; [done|]. split; [constructor|].
    intros d Hd. by apply elem_of_nil in Hd. }
  rewrite load_calls_cons.
  destruct (IH (import_model_from_generated_file path w).2)
    as (added & Heq & Hnd & Hin).
  rewrite Heq. clear Heq. rewrite sys_path_import in *.
  unfold register in *.
  destruct (bool_decide_reflect ((os_path_split path).1 ∈ sys_path w))
    as [Hd|Hd].
  - exists added. split; [done|]. split; [done|].
    intros d [Hnot (path' & Hp' & ->)]%Hin. split; [done|].
    exists path'. split; [by right|done].
  - exists ((os_path_split path).1 :: added). simpl in *.
    rewrite <-app_assoc. split; [done|]. split.
    + constructor; [|done]. intros [Hnot _]%Hin.
      apply Hnot. apply elem_of_app. right. by left.
    + intros d [->|Hd']%elem_of_cons.
      * split; [done|]. exists path. split; [by left|done].
      * apply Hin in Hd' as [Hnot (path' & Hp' & ->)]. split.
        -- intros Hc. apply Hnot. apply elem_of_app. by left.
        -- exists path'. split; [by right|done].
Qed.

Lemma load_calls_registers paths w path :
  path ∈ paths → (os_path_split path).1 ∈ sys_path (load_calls paths w).
Proof.
  revert w. induction paths as [|path' paths IH]; intros w Hin.
  { by apply elem_of_nil in Hin. }
  rewrite load_calls_cons.
  apply elem_of_cons in Hin as [->|Hin]; [|by apply IH].
  destruct (load_calls_sys_path paths
              (import_model_from_generated_file path' w).2)
    as (added & -> & _).
  apply elem_of_app. left. rewrite sys_path_import. unfold register.
  destruct (bool_decide_reflect ((os_path_split path').1 ∈ sys_path w));
    [done|].
  simpl. apply elem_of_app. right. by left.
Qed.

Lemma load_calls_again paths w :
  load_calls paths (load_calls paths w) = load_calls paths w.
Proof.
  apply world_eq.
  - rewrite (load_calls_files paths (load_calls paths w)).
    rewrite (load_calls_files paths w).
    by rewrite cache_writes_written, write_all_twice.
  - destruct (load_calls_sys_path paths (load_calls paths w))
      as (added & -> & _ & Hin).
    destruct added as [|d added]; [by rewrite app_nil_r|].
    destruct (Hin d) as [Hnot (path & Hpath & ->)]; [by left|].
    exfalso. apply Hnot. by apply load_calls_registers.
  - apply load_calls_output.
  - apply load_calls_output.
Qed.

(** C9: over any sequence of loader calls, whether they return or raise,
    [sys.path] only grows at its end: the entries it had stay in place,
    each directory appended was absent before and is appended once, every
    loaded file's directory ends up registered, and repeating the calls
    changes nothing more. *)
Theorem search_path_append_only paths w :
  (∃ added,
     sys_path (load_calls paths w) = app (sys_path w) added
     ∧ NoDup added
     ∧ ∀ d, d ∈ added →
         (d ∉ sys_path w)
         ∧ ∃ path, path ∈ paths ∧ d = (os_path_split path).1)
  ∧ (∀ path, path ∈ paths →
       (os_path_split path).1 ∈ sys_path (load_calls paths w))
  ∧ load_calls (paths ++ paths) w = load_calls paths w.
Proof.
  split; [apply load_calls_sys_path|]. split.
  - intros path. apply load_calls_registers.
  - rewrite load_calls_app. apply load_calls_again.
Qed.

End PipelineFacts.

(** ** The pipeline on the concrete platforms *)

(** C1, as stated, fails: with the tool missing (exit status 127) the call
    returns the pair of [None] and the empty text, the very value it
    returns when the tool exits with status 0 and writes nothing; no
    failure kind reaches the caller. *)
Lemma tool_failure_returns_an_ordinary_pair :
  (@create_pydantic_model Scenario.tool_missing Scenario.a_is_1
     Scenario.start).1 = Return (None, "")
  ∧ (@create_pydantic_model Scenario.tool_silent Scenario.a_is_1
       Scenario.start).1 = Return (None, "")
  ∧ @sh Scenario.tool_missing
      (codegen_command Scenario.json_path Scenario.py_path)
      (files (@prepare Scenario.tool_missing Scenario.a_is_1
                Scenario.start).2)
    = Exited 127 (files (@prepare Scenario.tool_missing Scenario.a_is_1
                           Scenario.start).2).
Proof. by vm_compute. Qed.

Lemma tool_failure_is_logged_then_ignored_witness :
  ∃ w', @create_pydantic_model
          (Scenario.tool_writes 3 Scenario.root_source)
          Scenario.a_is_1 Scenario.start
        = (Return (None,
                   nl +:+ "class Root(BaseModel):" +:+ nl +:+ "  a: int" +:+ nl),
           w')
      ∧ files w' !! Scenario.json_path = None
      ∧ files w' !! Scenario.py_path = None.
Proof.
  destruct (@tool_failure_is_logged_then_ignored
              (Scenario.tool_writes 3 Scenario.root_source)
              Scenario.a_is_1 Scenario.start
              Scenario.json_path Scenario.py_path
              (@prepare (Scenario.tool_writes 3 Scenario.root_source)
                 Scenario.a_is_1 Scenario.start).2
              3%Z
              (<[Scenario.py_path := Scenario.root_source]>
                 (files (@prepare (Scenario.tool_writes 3 Scenario.root_source)
                           Scenario.a_is_1 Scenario.start).2))
              Scenario.root_source
              Scenario.root_source
              (Scenario.root_unit "tmpp_w81mzt")
              (Scenario.root_unit "tmpp_w81mzt"))
    as (w' & Hrun & _ & Hj & Hp).
  - by vm_compute.
  - by vm_compute.
  - done.
  - vm_compute. eauto.
  - apply lookup_insert_eq.
  - by vm_compute.
  - by vm_compute.
  - by vm_compute.
  - exists w'. split; [exact Hrun|]. split; [exact Hj|exact Hp].
Defined.



(** C4, as stated, fails: when the tool leaves text that is no Python
    source, the call ends with the loader's [SyntaxError] as an unhandled
    exception, not with a failure value. *)
Lemma broken_source_raises :
  (@create_pydantic_model (Scenario.tool_writes 0 Scenario.broken_source)
     Scenario.a_is_1 Scenario.start).1
  = Raise (PyError "SyntaxError").
Proof. by vm_compute. Qed.

Lemma load_failure_escapes_witness :
  ∃ w', @create_pydantic_model
          (Scenario.tool_writes 0 Scenario.failing_source)
          Scenario.a_is_1 Scenario.start
        = (Raise (PyError "NameError"), w')
      ∧ files w' !! Scenario.json_path = None
      ∧ files w' !! Scenario.py_path = None.
Proof.
  apply (@load_failure_escapes
           (Scenario.tool_writes 0 Scenario.failing_source)
           Scenario.a_is_1 Scenario.start
           Scenario.json_path Scenario.py_path
           (@prepare (Scenario.tool_writes 0 Scenario.failing_source)
              Scenario.a_is_1 Scenario.start).2
           0%Z
           (<[Scenario.py_path := Scenario.failing_source]>
              (files (@prepare
                        (Scenario.tool_writes 0 Scenario.failing_source)
                        Scenario.a_is_1 Scenario.start).2))
           Scenario.failing_source
           (PyError "NameError")).
  - by vm_compute.
  - by vm_compute.
  - vm_compute. eauto.
  - apply lookup_insert_eq.
  - right. exists Scenario.failing_source. split; by vm_compute.
Defined.

(** C5, as stated, fails: with a tool that never exits the call never
    returns, and the two temporary files are still there. *)
Lemma hanging_tool_never_returns :
  (@create_pydantic_model Scenario.tool_hangs Scenario.a_is_1
     Scenario.start).1 = Blocked
  ∧ is_Some (files (@create_pydantic_model Scenario.tool_hangs
                      Scenario.a_is_1 Scenario.start).2
               !! Scenario.json_path)
  ∧ is_Some (files (@create_pydantic_model Scenario.tool_hangs
                      Scenario.a_is_1 Scenario.start).2
               !! Scenario.py_path).
Proof. vm_compute. eauto. Qed.

Lemma hanging_tool_blocks_the_call_witness :
  (@create_pydantic_model Scenario.tool_hangs Scenario.a_is_1
     Scenario.start).1 = Blocked.
Proof.
  destruct (@hanging_tool_blocks_the_call Scenario.tool_hangs
              Scenario.a_is_1 Scenario.start
              Scenario.json_path Scenario.py_path
              (@prepare Scenario.tool_hangs Scenario.a_is_1
                 Scenario.start).2)
    as (Hrun & _).
  - by vm_compute.
  - by vm_compute.
  - by rewrite Hrun.
Defined.

(** C8, as stated, fails: for a unit without [Model] the call returns the
    ordinary pair, with [None] in it, and prints the line of a successful
    generation and nothing else, exactly what it prints for a unit that
    has a [Model]; the absence is reported nowhere. *)
Lemma missing_Model_goes_unreported :
  (@create_pydantic_model (Scenario.tool_writes 0 Scenario.root_source)
     Scenario.a_is_1 Scenario.start).1
  = Return (None,
            nl +:+ "class Root(BaseModel):" +:+ nl +:+ "  a: int" +:+ nl)
  ∧ stdout (@create_pydantic_model
              (Scenario.tool_writes 0 Scenario.root_source)
              Scenario.a_is_1 Scenario.start).2
    = [[PStr "model generation successful"]]
  ∧ stdout (@create_pydantic_model
              (Scenario.tool_writes 0 Scenario.root_source)
              Scenario.a_is_1 Scenario.start).2
    = stdout (@create_pydantic_model
                (Scenario.tool_writes 0 Scenario.model_source)
                Scenario.a_is_1 Scenario.start).2.
Proof. by vm_compute. Qed.

Lemma missing_Model_is_not_reported_witness :
  ∃ w', @create_pydantic_model
          (Scenario.tool_writes 0 Scenario.root_source)
          Scenario.a_is_1 Scenario.start
        = (Return (None,
                   class_details_of (Scenario.root_unit "tmpp_w81mzt")
                     Scenario.base_model), w')
      ∧ stdout w' = [[PStr "model generation successful"]].
Proof.
  apply (@missing_Model_is_not_reported
           (Scenario.tool_writes 0 Scenario.root_source)
           Scenario.a_is_1 Scenario.start
           Scenario.json_path Scenario.py_path
           (@prepare (Scenario.tool_writes 0 Scenario.root_source)
              Scenario.a_is_1 Scenario.start).2
           0%Z
           (<[Scenario.py_path := Scenario.root_source]>
              (files (@prepare (Scenario.tool_writes 0 Scenario.root_source)
                        Scenario.a_is_1 Scenario.start).2))
           Scenario.root_source
           Scenario.root_source
           (Scenario.root_unit "tmpp_w81mzt")
           (Scenario.root_unit "tmpp_w81mzt")).
  - by vm_compute.
  - by vm_compute.
  - vm_compute. eauto.
  - apply lookup_insert_eq.
  - by vm_compute.
  - by vm_compute.
  - by vm_compute.
  - by vm_compute.
Defined.

Lemma search_path_append_only_witness :
  "/srv/app" ∈ sys_path (@load_calls Scenario.tool_silent
                           [Scenario.py_path; Scenario.py_path]
                           Scenario.start)
  ∧ sys_path (@load_calls Scenario.tool_silent
                [Scenario.py_path; Scenario.py_path] Scenario.start)
    = ["/srv/app/src"; "/usr/lib/python3.11"; "/srv/app"].
Proof.
  split.
  - apply (proj1 (proj2 (@search_path_append_only Scenario.tool_silent
                           [Scenario.py_path; Scenario.py_path]
                           Scenario.start))
             Scenario.py_path).
    by left.
  - by vm_compute.
Defined.

(** ** The configuration lookup *)

Section ConfigFacts.
Context {Id : Type} `{Countable Id} (str : Id → string) {Row : Type}.

Lemma get_workflow_config_state (i : Id) (s : @django Id _ _ Row) :
  (get_workflow_config str i s).2 = s.
Proof.
  unfold get_workflow_config, cache_get, get_object_or_404.
  destruct (cache s !! _); [done|]. by destruct (table s !! i).
Qed.

(** C10: when the cache has no entry under [workflow_config_<id>] and the
    table has a row with that id, [get_workflow_config] returns [None]:
    the row fetched by [get_object_or_404] is dropped, and neither the
    cache nor the table changes.  A value other than [None] is returned
    only when it was the cached entry. *)
Theorem uncached_config_is_dropped (i : Id) (s : @django Id _ _ Row) :
  (∀ row, cache s !! ("workflow_config_" +:+ str i) = None →
          table s !! i = Some row →
          get_workflow_config str i s = (Return None, s))
  ∧ (∀ config s', get_workflow_config str i s = (Return (Some config), s') →
       cache s !! ("workflow_config_" +:+ str i) = Some config)
  ∧ (get_workflow_config str i s).2 = s.
Proof.
  split; [|split; [|apply get_workflow_config_state]].
  - intros row Hc Ht. unfold get_workflow_config, cache_get, get_object_or_404.
    by rewrite Hc, Ht.
  - intros config s'. unfold get_workflow_config, cache_get, get_object_or_404.
    destruct (cache s !! _) as [c|]; [by intros [= -> _]|].
    by destruct (table s !! i).
Qed.

End ConfigFacts.

Lemma uncached_config_is_dropped_witness :
  get_workflow_config Scenario.str_int 7%Z Scenario.uncached
  = (Return None, Scenario.uncached).
Proof.
  apply (proj1 (uncached_config_is_dropped Scenario.str_int 7%Z
                  Scenario.uncached) "row 7").
  - by vm_compute.
  - by vm_compute.
Defined.

(** ** More on the configuration lookup and cache invalidation *)

Section CacheFacts.
Context {Id : Type} `{Countable Id} (str : Id → string) {Row : Type}.

Lemma get_workflow_config_cases (i : Id) (s : @django Id _ _ Row) :
  get_workflow_config str i s
  = (match cache s !! ("workflow_config_" +:+ str i) with
     | Some config => Return (Some config)
     | None =>
         match table s !! i with
         | Some _ => Return None
         | None => Raise (PyError "Http404")
         end
     end, s).
Proof.
  unfold get_workflow_config, cache_get, get_object_or_404.
  destruct (cache s !! _); [done|]. by destruct (table s !! i).
Qed.

(** X2: a cached entry is returned as it is, whatever the table holds: the
    row may have changed or be gone. *)
Theorem cached_config_is_returned_unchecked (i : Id) (config : Row)
    (c : gmap string Row) (t1 t2 : gmap Id Row) :
  c !! ("workflow_config_" +:+ str i) = Some config →
  get_workflow_config str i (Django c t1) = (Return (Some config), Django c t1)
  ∧ (get_workflow_config str i (Django c t2)).1
    = (get_workflow_config str i (Django c t1)).1.
Proof.
  intros Hc. rewrite !get_workflow_config_cases. simpl. by rewrite Hc.
Qed.

(** X3: on a backend without [delete_pattern], [dehydrate_cache] removes
    the one entry whose key is the pattern itself and nothing else: a
    lookup under any other key, such as a config key the pattern was meant
    to cover, answers as before. *)
Theorem dehydrate_without_delete_pattern_is_exact (i : Id)
    (key_pattern : string) (s : @django Id _ _ Row) :
  key_pattern ≠ "workflow_config_" +:+ str i →
  (dehydrate_cache None key_pattern s).1 = Return ()
  ∧ cache (dehydrate_cache None key_pattern s).2 !! key_pattern = None
  ∧ (∀ k, k ≠ key_pattern →
       cache (dehydrate_cache None key_pattern s).2 !! k = cache s !! k)
  ∧ table (dehydrate_cache None key_pattern s).2 = table s
  ∧ (get_workflow_config str i (dehydrate_cache None key_pattern s).2).1
    = (get_workflow_config str i s).1.
Proof.
  intros Hne. unfold dehydrate_cache, cache_delete. simpl.
  split; [done|]. split; [apply lookup_delete_eq|].
  split; [intros k Hk; by apply lookup_delete_ne|]. split; [done|].
  rewrite !get_workflow_config_cases. simpl.
  by rewrite lookup_delete_ne.
Qed.

(** X4: once the key of a config has been dehydrated, the lookup never
    serves the config again: it answers [None] when the row exists and
    raises [Http404] when it does not.  For a backend with
    [delete_pattern] this takes that the pattern made of the key removes
    the key. *)
Theorem dehydrated_config_is_not_served
    (delete_pattern : option (string → gmap string Row → gmap string Row))
    (i : Id) (s : @django Id _ _ Row) :
  (∀ del c, delete_pattern = Some del →
     del ("workflow_config_" +:+ str i) c
       !! ("workflow_config_" +:+ str i) = None) →
  (get_workflow_config str i
     (dehydrate_cache delete_pattern ("workflow_config_" +:+ str i) s).2).1
  = match table s !! i with
    | Some _ => Return None
    | None => Raise (PyError "Http404")
    end.
Proof.
  intros Hdel. rewrite get_workflow_config_cases. simpl.
  unfold dehydrate_cache.
  destruct delete_pattern as [del|]; simpl.
  - by rewrite (Hdel del (cache s) eq_refl).
  - by rewrite lookup_delete_eq.
Qed.

End CacheFacts.

(** ** More on the pipeline *)

Section PipelineMore.
Context {P : Platform}.

Lemma tmp_stem_ok k :
  "/"%char ∉ chars (rand_name k) → "."%char ∉ chars (rand_name k) →
  "tmp" +:+ rand_name k ≠ ""
  ∧ ("/"%char ∉ chars ("tmp" +:+ rand_name k))
  ∧ ("."%char ∉ chars ("tmp" +:+ rand_name k)).
Proof.
  intros Hs Hd. split; [done|].
  split; rewrite chars_app; intros [Hin|?]%elem_of_app; try done;
    vm_compute in Hin;
    by repeat (apply elem_of_cons in Hin as [?|Hin]);
      try by apply elem_of_nil in Hin.
Qed.

(** X6: the successful run.  When the working directory is a normal one
    and the random names have neither slash nor dot, the source file is
    [tmp<name>.py] in the working directory and both loads run it as unit
    [tmp<name>].  If the tool exits with status 0, leaves its input file
    in place, and the text it left compiles and runs, the call returns the
    unit's [Model] attribute with the unit's descriptor text, prints the
    success line, and neither temporary file is left. *)
Theorem successful_generation sample w j p w0 fs' text code :
  normal_dir getcwd = true →
  (∀ k, ("/"%char ∉ chars (rand_name k))
        ∧ ("."%char ∉ chars (rand_name k))) →
  prepare sample w = (Return (j, p), w0) →
  sh (codegen_command j p) (files w0) = Exited 0 fs' →
  is_Some (fs' !! j) →
  fs' !! p = Some text →
  source_to_code text p = inr code →
  ∃ k, p = os_path_join getcwd ("tmp" +:+ rand_name k +:+ ".py")
     ∧ ∀ m, exec_code ("tmp" +:+ rand_name k) p code = inr m →
         ∃ w', create_pydantic_model sample w
               = (Return (getattr m "Model", class_details_of m BaseModel), w')
             ∧ stdout w'
               = app (stdout w) [[PStr "model generation successful"]]
             ∧ files w' !! j = None
             ∧ files w' !! p = None.
Proof.
  intros Hdir Hnames Hprep Hsh Hj Hp Hc.
  destruct (prepare_source_name _ _ _ _ _ Hprep) as [k Hk].
  exists k. split; [done|]. intros m Hm.
  destruct (Hnames k) as [Hs Hd].
  destruct (tmp_stem_ok k Hs Hd) as (Hne & Hs' & Hd').
  pose proof (loader_unit_name_py getcwd _ Hdir Hne Hs' Hd') as Hl.
  pose proof (path_stem_py getcwd _ Hdir Hne Hs' Hd') as Hst.
  rewrite string_app_assoc in Hl, Hst. rewrite <-Hk in Hl, Hst.
  destruct (create_pydantic_model_loaded _ _ _ _ _ _ _ _ Hprep Hsh Hj Hp)
    as (w' & -> & Hf & Ho).
  exists w'. unfold load_and_describe. rewrite Hc, Hl, Hst, Hm.
  split; [done|]. split; [done|]. rewrite Hf. apply absent_after_cleanup.
Qed.

Lemma mkstemp_inner_raises n dir pre suf w e w' :
  mkstemp_inner n dir pre suf w = (Raise e, w') →
  e = PyError "FileExistsError".
Proof.
  revert w. induction n as [|n IH]; intros w; simpl.
  - by intros [= <- _].
  - destruct (files w !! _); [apply IH|done].
Qed.

(** X7: a sample [json.dump] cannot write makes the call raise that
    exception (or [FileExistsError] when no temporary name is free) before
    anything else happens: no file is left, nothing is printed, [sys.path]
    is as before. *)
Theorem unserialisable_sample_raises sample w e :
  json_dumps sample = inl e →
  ∃ e' w', create_pydantic_model sample w = (Raise e', w')
         ∧ (e' = e ∨ e' = PyError "FileExistsError")
         ∧ files w' = files w
         ∧ sys_path w' = sys_path w
         ∧ stdout w' = stdout w.
Proof.
  intros He. unfold create_pydantic_model, with_NamedTemporaryFile.
  pose proof (mkstemp_inner_spec TMP_MAX getcwd "tmp" ".json" w) as Hj.
  destruct (mkstemp_inner TMP_MAX getcwd "tmp" ".json" w) as [[j|e1|] w1]
    eqn:Hmk; [| |done].
  - destruct Hj as (Hj & Hf & Hs & Ho).
    rewrite bind_unfold. unfold json_dump. rewrite He.
    destruct (leave_spec j (@Raise (option pyobj * string) e) w1)
      as (r' & -> & _ & Hr'); [done|].
    rewrite Hr' by (left; rewrite Hf, lookup_insert_eq; eauto).
    exists e. eexists. split; [done|]. split; [by left|]. simpl.
    rewrite Hf, delete_insert_eq. split; [by apply delete_id|done].
  - destruct Hj as (Hf & Hs & Ho).
    apply mkstemp_inner_raises in Hmk as ->.
    exists (PyError "FileExistsError"), w1. split; [done|]. split; [by right|].
    done.
Qed.

(** X8: when the tool is started, the input file holds the text of
    [json.dumps] of the sample and the output file exists and is empty;
    both are new names, and every file that was there before is as it
    was. *)
Theorem tool_starts_on_the_dumped_sample sample w j p w0 :
  prepare sample w = (Return (j, p), w0) →
  ∃ text, json_dumps sample = inr text
        ∧ files w0 !! j = Some text
        ∧ files w0 !! p = Some ""
        ∧ j ≠ p
        ∧ files w !! j = None
        ∧ files w !! p = None
        ∧ ∀ f content, files w !! f = Some content →
            files w0 !! f = Some content.
Proof.
  intros (Hj & Hp & Hne & _ & _ & text & Ht & ->)%prepare_spec.
  exists text. split; [done|].
  rewrite lookup_insert_eq, lookup_insert_ne, lookup_insert_eq by done.
  repeat (split; [done|]).
  intros f content Hf.
  rewrite !lookup_insert_ne; [done|intros ->; congruence..].
Qed.

(** X9: a run in which the tool exits leaves the working directory on
    [sys.path]: appended at the end if it was absent, and [sys.path] as it
    was if it was present, whether the load then succeeds or fails. *)
Theorem pipeline_registers_the_working_directory sample w j p w0 rc fs' :
  normal_dir getcwd = true →
  (∀ k, "/"%char ∉ chars (rand_name k)) →
  prepare sample w = (Return (j, p), w0) →
  sh (codegen_command j p) (files w0) = Exited rc fs' →
  sys_path (create_pydantic_model sample w).2
  = if bool_decide (getcwd ∈ sys_path w) then sys_path w
    else app (sys_path w) [getcwd].
Proof.
  intros Hdir Hnames Hprep Hsh.
  destruct (create_pydantic_model_exited _ _ _ _ _ _ _ Hprep Hsh)
    as (o & -> & _).
  destruct (prepare_source_name _ _ _ _ _ Hprep) as [k ->].
  apply prepare_spec in Hprep as (_ & _ & _ & Hsp & _).
  assert ("/"%char ∉ chars ("tmp" +:+ rand_name k +:+ ".py")) as Hfile.
  { rewrite !chars_app. intros [Hin|[Hin|Hin]%elem_of_app]%elem_of_app.
    - vm_compute in Hin.
      by repeat (apply elem_of_cons in Hin as [?|Hin]);
        try by apply elem_of_nil in Hin.
    - by apply (Hnames k).
    - vm_compute in Hin.
      by repeat (apply elem_of_cons in Hin as [?|Hin]);
        try by apply elem_of_nil in Hin. }
  rewrite os_path_split_join by done.
  cbn [snd fst sys_path set_files]. unfold register. simpl. rewrite Hsp.
  destruct (bool_decide (getcwd ∈ sys_path w)); simpl; by rewrite Hsp.
Qed.

Lemma cache_writes_one_lookup path fs f :
  f ≠ cache_from_source path →
  write_all (cache_writes [path] fs) fs !! f = fs !! f.
Proof.
  intros Hf. unfold cache_writes. simpl.
  destruct (str_endswith path ".py" && negb dont_write_bytecode); [|done].
  destruct (fs !! path) as [text|]; [|done].
  destruct (source_to_code text path); [done|].
  simpl. by apply lookup_insert_ne.
Qed.

(** X10: the loader registers the directory before it loads, and does not
    take it back: a load that fails still leaves the directory on
    [sys.path].  A failed load changes no file other than the bytecode
    cache file of the path, which is written when the text compiles and
    then raises.  For a missing [.py] file the exception is
    [FileNotFoundError] and no file changes; for a path whose suffix no
    loader takes it is [AttributeError]. *)
Theorem failed_load_leaves_directory_registered path w e :
  (import_model_from_generated_file path w).1 = Raise e →
  (os_path_split path).1 ∈ sys_path (import_model_from_generated_file path w).2
  ∧ (∀ f, f ≠ cache_from_source path →
       files (import_model_from_generated_file path w).2 !! f = files w !! f)
  ∧ (str_endswith path ".py" = true → files w !! path = None →
       e = PyError "FileNotFoundError"
       ∧ files (import_model_from_generated_file path w).2 = files w)
  ∧ (str_endswith path ".py" = false →
     load_binary (loader_unit_name path) path (files w !! path) = None →
       e = PyError "AttributeError").
Proof.
  intros He. split; [|split; [|split]].
  - rewrite sys_path_import. unfold register.
    destruct (bool_decide_reflect ((os_path_split path).1 ∈ sys_path w))
      as [Hin|Hin]; [exact Hin|].
    cbn. apply elem_of_app. right. by left.
  - intros f Hf. rewrite (proj2 (import_model_world path w)).
    cbn [files set_files]. rewrite files_register.
    by apply cache_writes_one_lookup.
  - intros Hpy Hf. rewrite import_model_unfold in He |- *.
    rewrite load_unit_missing in He |- * by (by rewrite ?files_register).
    cbn [fst snd] in *. split; [by injection He|apply files_register].
  - intros Hpy Hb. rewrite import_model_unfold in He.
    unfold load_unit in He. rewrite Hpy, files_register, Hb in He.
    by injection He.
Qed.

Lemma prepare_input_name sample w j p w0 :
  prepare sample w = (Return (j, p), w0) →
  ∃ k, j = os_path_join getcwd ("tmp" +:+ rand_name k +:+ ".json").
Proof.
  unfold prepare. rewrite bind_unfold.
  destruct (mkstemp_inner TMP_MAX getcwd "tmp" ".json" w) as [[j'|e|] w1]
    eqn:Hj; [|done..].
  rewrite !bind_unfold. unfold json_dump.
  destruct (json_dumps sample) as [e|text]; [done|].
  rewrite bind_unfold.
  destruct (mkstemp_inner TMP_MAX getcwd "tmp" ".py" _) as [[p'|e|] w3];
    [|done..].
  intros [= -> _ _]. by eapply mkstemp_inner_name.
Qed.

(** The cache file is not the input file: their names end differently. *)
Lemma cache_from_source_not_input sample w j p w0 q :
  prepare sample w = (Return (j, p), w0) → cache_from_source q ≠ j.
Proof.
  intros [k ->]%prepare_input_name Heq.
  destruct (os_path_join_suffix getcwd ("tmp" +:+ rand_name k +:+ ".json"))
    as [pre Hpre].
  rewrite Hpre in Heq. unfold cache_from_source in Heq.
  apply (f_equal (λ x, rev (chars x))) in Heq.
  rewrite !chars_app, !rev_app_distr in Heq. by injection Heq.
Qed.

(** X21: when the tool has removed its input file and left text in the
    output file, what the call does depends on [tempfile]: where it lets
    pass that the file is gone (Python 3.12 and later) the call ends as the
    two loads end; where it does not, leaving the outer [with] block
    raises [FileNotFoundError], which takes the place of the result or of
    the exception of the loads.  The output file is removed either way. *)
Theorem removed_input_shows_on_exit sample w j p w0 rc fs' text :
  prepare sample w = (Return (j, p), w0) →
  sh (codegen_command j p) (files w0) = Exited rc fs' →
  fs' !! j = None →
  fs' !! p = Some text →
  (create_pydantic_model sample w).1
  = (if unlink_missing_ok then load_and_describe p text
     else Raise (PyError "FileNotFoundError"))
  ∧ files (create_pydantic_model sample w).2 !! p = None.
Proof.
  intros Hprep Hsh Hj Hp.
  pose proof (prepare_source_py _ _ _ _ _ Hprep) as Hpy.
  pose proof (cache_from_source_not_input _ _ _ _ _ p Hprep) as Hcj.
  pose proof (cache_from_source_not_source p p Hpy) as Hcp.
  rewrite (create_pydantic_model_prepared _ _ _ _ _ Hprep).
  rewrite (generate_and_load_spec _ _ _ Hpy), Hsh, Hp.
  apply prepare_spec in Hprep as (_ & _ & Hne & _).
  set (W := set_files (cache_update p text) _).
  assert (∀ f, f ≠ cache_from_source p → files W !! f = fs' !! f) as HW.
  { intros f Hf. subst W. cbn [files set_files]. rewrite files_register.
    by apply cache_update_lookup. }
  rewrite leave_present;
    [|apply load_and_describe_returns|rewrite HW, Hp by done; eauto].
  rewrite leave_absent; [|apply load_and_describe_returns|].
  2:{ cbn [files set_files]. rewrite lookup_delete_ne by done.
      rewrite HW by done. exact Hj. }
  cbn [fst snd files set_files]. split; [done|apply lookup_delete_eq].
Qed.

End PipelineMore.

(** ** More on the introspector *)

Lemma concat_strings_app (l1 l2 : list string) :
  concat_strings (l1 ++ l2) = concat_strings l1 +:+ concat_strings l2.
Proof.
  induction l1 as [|s l1 IH]; [done|].
  simpl. unfold concat_strings in *. simpl. by rewrite IH, string_app_assoc.
Qed.

(** X11: the text is empty exactly when no class bound in the unit
    qualifies: an empty text never hides a described class, and a unit
    without qualifying classes gives the empty text, not an error. *)
Theorem empty_text_iff_nothing_qualifies m base_class :
  class_details_of m base_class = ""
  ↔ ∀ n c, (n, PyClass c) ∈ mod_dict m → qualifies m base_class c = false.
Proof.
  rewrite class_details_of_extract. unfold extract. split.
  - intros Hempty n c Hin.
    destruct (qualifies m base_class c) eqn:Hq; [|done].
    assert ((n, c) ∈ qualifying_members m base_class) as Hmem
      by (by apply elem_of_qualifying_members).
    destruct (qualifying_members m base_class) as [|x l]; [by apply elem_of_nil in Hmem|].
    done.
  - intros Hnone.
    destruct (qualifying_members m base_class) as [|[n c] l] eqn:Hq; [done|].
    assert ((n, c) ∈ qualifying_members m base_class) as Hmem
      by (rewrite Hq; by left).
    apply elem_of_qualifying_members in Hmem as [Hin Hqual].
    by rewrite (Hnone _ _ Hin) in Hqual.
Qed.

(** X12: every class bound in the unit that is a subclass of the base
    class and has the unit's name as its [__module__] is described, under
    the name it is bound to: its block, header and field lines, is part of
    the text.  This holds for the base class too when the unit itself
    declares it. *)
Theorem every_qualifying_binding_is_described m base_class n c :
  (n, PyClass c) ∈ mod_dict m →
  issubclass c base_class = true →
  cls_module c = mod_name m →
  describe base_class (n, c) ∈ extract m base_class
  ∧ ∃ before after,
      class_details_of m base_class
      = before +:+ nl +:+ render_class (describe base_class (n, c)) +:+ after.
Proof.
  intros Hin Hsub Hmod.
  assert (describe base_class (n, c) ∈ extract m base_class) as Hd.
  { apply list_elem_of_fmap. exists (n, c). split; [done|].
    apply elem_of_qualifying_members. split; [done|].
    unfold qualifies. rewrite Hsub. by apply bool_decide_eq_true_2. }
  split; [done|].
  apply list_elem_of_split in Hd as (l1 & l2 & Heq).
  rewrite class_details_of_extract, Heq, fmap_app, concat_strings_app.
  exists (concat_strings ((λ d, nl +:+ render_class d) <$> l1)),
         (concat_strings ((λ d, nl +:+ render_class d) <$> l2)).
  rewrite fmap_cons.
  change (concat_strings (?x :: ?l)) with (x +:+ concat_strings l).
  by rewrite string_app_assoc.
Qed.

Lemma sorted_by_name_unique {A} (l1 l2 : list (string * A)) :
  StronglySorted by_name l1 → StronglySorted by_name l2 →
  l1 ≡ₚ l2 → NoDup l1.*1 → l1 = l2.
Proof.
  revert l2. induction l1 as [|x l1 IH]; intros l2 Hs1 Hs2 Hp Hnd.
  { by apply Permutation_nil_l in Hp. }
  destruct l2 as [|y l2]; [by apply Permutation_nil_r in Hp|].
  apply StronglySorted_inv in Hs1 as [Hs1 Hx].
  apply StronglySorted_inv in Hs2 as [Hs2 Hy].
  rewrite fmap_cons in Hnd. apply NoDup_cons in Hnd as [Hxk Hnd].
  assert (x = y) as ->.
  { destruct (decide_rel (=) x.1 y.1) as [Hk|Hk].
    - assert (y ∈ x :: l1) as [->|Hin]%elem_of_cons
        by (rewrite Hp; by left); [done|].
      exfalso. apply Hxk. rewrite Hk. by apply list_elem_of_fmap_2.
    - exfalso. apply Hk.
      assert (y ∈ x :: l1) as [->|Hy1]%elem_of_cons
        by (rewrite Hp; by left); [done|].
      assert (x ∈ y :: l2) as [->|Hx2]%elem_of_cons
        by (rewrite <-Hp; by left); [done|].
      rewrite Forall_forall in Hx, Hy.
      apply (anti_symm String.le); [by apply Hx|by apply Hy]. }
  f_equal. apply IH; [done..| |done].
  by apply Permutation_cons_inv in Hp.
Qed.

Lemma add_class_mod_name m1 m2 base_class :
  mod_name m1 = mod_name m2 →
  add_class m1 base_class = add_class m2 base_class.
Proof.
  intros Hn. unfold add_class, qualifies. by rewrite Hn.
Qed.

(** X13: the text does not depend on the order in which the unit binds
    its names: two units with the same name and the same bindings, in any
    order, give the same text. *)
Theorem text_independent_of_binding_order m1 m2 base_class :
  mod_name m1 = mod_name m2 →
  mod_dict m1 ≡ₚ mod_dict m2 →
  NoDup (mod_dict m1).*1 →
  class_details_of m1 base_class = class_details_of m2 base_class.
Proof.
  intros Hn Hp Hnd. unfold class_details_of.
  rewrite (add_class_mod_name m1 m2) by done. f_equal.
  assert (getmembers m1 isclass ≡ₚ getmembers m2 isclass) as Hperm.
  { by rewrite !getmembers_perm, Hp. }
  apply sorted_by_name_unique; [apply sort_by_name_sorted..|done|].
  rewrite getmembers_perm.
  eapply sublist_NoDup; [exact Hnd|].
  apply fmap_sublist, sublist_filter.
Qed.

(** ** The views *)

Section SearchFacts.
Context {Workflow : Type} (tags : Workflow → option (list string)).

Lemma tags_overlap_spec query w :
  tags_overlap tags query w = true
  ↔ ∃ ts t, tags w = Some ts ∧ t ∈ ts ∧ t ∈ query.
Proof.
  unfold tags_overlap. destruct (tags w) as [ts|];
    [|split; [done|by intros (? & ? & ? & _)]].
  rewrite existsb_exists. split.
  - intros (t & Hin%list_elem_of_In & Ht%bool_decide_eq_true). eauto.
  - intros (ts' & t & [= <-] & Hin & Hq). exists t.
    split; [by apply list_elem_of_In|by apply bool_decide_eq_true].
Qed.

Lemma get_queryset_filtered query_params workflows p :
  query_params !! "tags" = Some p → p ≠ "" →
  get_queryset tags query_params workflows
  = filter (λ w, tags_overlap tags (str_split "," p) w = true) workflows.
Proof.
  intros Hp Hne. unfold get_queryset. rewrite Hp. simpl.
  rewrite decide_False by done.
  pose proof (str_split_nonempty "," p).
  by destruct (str_split "," p).
Qed.

(** A search without the [tags] parameter, or with an empty one, lists
    every workflow, in the order of the table. *)
Lemma search_without_tags_lists_everything query_params workflows :
  query_params !! "tags" = None ∨ query_params !! "tags" = Some "" →
  get_queryset tags query_params workflows = workflows.
Proof. intros [Hp|Hp]; unfold get_queryset; by rewrite Hp. Qed.

(** X14: a search with a non-empty [tags] parameter lists, in the order
    of the table, exactly the workflows one of whose tags is equal to one
    of the pieces between the commas of the parameter. *)
Theorem search_by_tags_matches_a_shared_tag query_params workflows p :
  query_params !! "tags" = Some p → p ≠ "" →
  get_queryset tags query_params workflows `sublist_of` workflows
  ∧ ∀ w, w ∈ get_queryset tags query_params workflows
         ↔ w ∈ workflows
           ∧ ∃ ts t, tags w = Some ts ∧ t ∈ ts ∧ t ∈ str_split "," p.
Proof.
  intros Hp Hne. rewrite (get_queryset_filtered _ _ _ Hp Hne).
  split; [apply sublist_filter|].
  intros w. rewrite list_elem_of_filter, tags_overlap_spec. tauto.
Qed.

(** X15: a workflow all of whose tags contain a comma, or whose tags are
    null or empty, is never listed by a search with a non-empty [tags]
    parameter: the parameter is cut at every comma. *)
Theorem tag_with_a_comma_is_never_found query_params workflows p w :
  query_params !! "tags" = Some p → p ≠ "" →
  (∀ ts t, tags w = Some ts → t ∈ ts → ","%char ∈ chars t) →
  w ∉ get_queryset tags query_params workflows.
Proof.
  intros Hp Hne Hcomma.
  rewrite (get_queryset_filtered _ _ _ Hp Hne).
  rewrite list_elem_of_filter, tags_overlap_spec.
  intros ((ts & t & Hts & Ht & Hsplit) & _).
  by apply (str_split_no_sep _ _ _ Hsplit), (Hcomma ts).
Qed.

End SearchFacts.

Section TaskFacts.
Context {TaskId : Type} `{EqDecision TaskId}.
Context (new_id : list (@Task TaskId) → TaskId).
Context {Workflow : Type} (workflow_id : Workflow → string).
Context (format_percent : nat → nat → string).

Lemma task_progress_cases workflow (tasks : list (@Task TaskId)) :
  task_progress format_percent workflow tasks
  = match main_tasks_of workflow tasks with
    | [] => Response [("error", JStr "No tasks found for this workflow")] 404
    | _ :: _ =>
        Response
          [("workflow_id", JStr workflow);
           ("progress",
            JStr (format_percent
                    (List.length
                       (filter (λ t : @Task TaskId, task_status t = "Completed") (main_tasks_of workflow tasks)))
                    (List.length (main_tasks_of workflow tasks))))]
          200
    end.
Proof.
  unfold task_progress. by destruct (main_tasks_of workflow tasks).
Qed.

(** X17: the answer of the progress view depends only on the workflow's
    tasks without a parent: subtasks, tasks of other workflows and the
    order of the rows do not change it. *)
Theorem progress_counts_main_tasks_only workflow
    (tasks1 tasks2 : list (@Task TaskId)) :
  main_tasks_of workflow tasks1 ≡ₚ main_tasks_of workflow tasks2 →
  task_progress format_percent workflow tasks1
  = task_progress format_percent workflow tasks2.
Proof.
  intros Hp. rewrite !task_progress_cases.
  assert (List.length (main_tasks_of workflow tasks1)
          = List.length (main_tasks_of workflow tasks2)) as Hlen
    by (by rewrite Hp).
  assert (List.length (filter (λ t : @Task TaskId, task_status t = "Completed") (main_tasks_of workflow tasks1))
          = List.length (filter (λ t : @Task TaskId, task_status t = "Completed") (main_tasks_of workflow tasks2)))
    as Hc by (by rewrite Hp).
  rewrite Hlen, Hc.
  destruct (main_tasks_of workflow tasks1), (main_tasks_of workflow tasks2);
    by simplify_eq/=.
Qed.



End TaskFacts.

Section SearchAlternatives.
Context {Workflow : Type} (tags : Workflow → option (list string)).

(** X19: the comma-separated tags of a search are alternatives: for
    [p] and [q] that are not empty, a workflow is listed for [p,q] exactly
    when it is listed for [p] or for [q]. *)
Theorem search_tags_are_alternatives workflows p q w :
  p ≠ "" → q ≠ "" →
  w ∈ get_queryset tags {[ "tags" := p +:+ "," +:+ q ]} workflows
  ↔ w ∈ get_queryset tags {[ "tags" := p ]} workflows
    ∨ w ∈ get_queryset tags {[ "tags" := q ]} workflows.
Proof.
  intros Hp Hq.
  assert (p +:+ "," +:+ q ≠ "") as Hpq by (by destruct p).
  rewrite !(get_queryset_filtered tags _ _ _ (lookup_singleton_eq _ _))
    by done.
  rewrite !list_elem_of_filter, !tags_overlap_spec.
  change (p +:+ "," +:+ q) with (p +:+ String "," q).
  rewrite str_split_app. setoid_rewrite elem_of_app.
  split.
  - intros [(ts & t & Hts & Ht & [Hin|Hin]) Hw]; [left|right]; eauto 10.
  - intros [[(ts & t & Hts & Ht & Hin) Hw]|[(ts & t & Hts & Ht & Hin) Hw]];
      eauto 10.
Qed.

End SearchAlternatives.

Section PipelineEdge.
Context {P : Platform}.

Lemma mkstemp_inner_exhausted n dir pre suf w :
  (∀ k, is_Some (files w !! os_path_join dir (pre +:+ rand_name k +:+ suf))) →
  (mkstemp_inner n dir pre suf w).1 = Raise (PyError "FileExistsError")
  ∧ files (mkstemp_inner n dir pre suf w).2 = files w
  ∧ sys_path (mkstemp_inner n dir pre suf w).2 = sys_path w
  ∧ stdout (mkstemp_inner n dir pre suf w).2 = stdout w.
Proof.
  revert w. induction n as [|n IH]; intros w Hall; simpl; [done|].
  destruct (Hall (draws w)) as [c Hc]. rewrite Hc.
  apply (IH (set_draws S w)). intros k. apply Hall.
Qed.

(** X20: when every candidate name for the JSON file is taken, the call
    gives up after [TMP_MAX] attempts with [FileExistsError]; it has
    created nothing, has not run the tool, and no existing file has been
    touched. *)
Theorem no_free_name_raises_FileExistsError sample w :
  (∀ k, is_Some (files w !! os_path_join getcwd
                               ("tmp" +:+ rand_name k +:+ ".json"))) →
  (create_pydantic_model sample w).1 = Raise (PyError "FileExistsError")
  ∧ files (create_pydantic_model sample w).2 = files w
  ∧ sys_path (create_pydantic_model sample w).2 = sys_path w
  ∧ stdout (create_pydantic_model sample w).2 = stdout w.
Proof.
  intros Hall. unfold create_pydantic_model, with_NamedTemporaryFile.
  pose proof (mkstemp_inner_exhausted TMP_MAX getcwd "tmp" ".json" w Hall)
    as (Ho & Hf & Hs & Hp).
  destruct (mkstemp_inner TMP_MAX getcwd "tmp" ".json" w) as [[j|e|] w1];
    cbn [fst snd] in Ho, Hf, Hs, Hp; [done| |done].
  injection Ho as ->. done.
Qed.

End PipelineEdge.

(** ** The added properties on concrete cases *)

(** Closed decidable statements are settled by evaluation. *)
Ltac by_evaluation := apply (bool_decide_unpack _); vm_compute; exact I.

Lemma cached_config_is_returned_unchecked_witness :
  get_workflow_config Scenario.str_int 7%Z
    (Django (cache Scenario.cached) (∅ : gmap Z string))
  = (Return (Some "row 7"),
     Django (cache Scenario.cached) (∅ : gmap Z string)).
Proof.
  apply (cached_config_is_returned_unchecked Scenario.str_int 7%Z "row 7"
           (cache Scenario.cached) ∅ (table Scenario.cached)).
  by vm_compute.
Defined.

Lemma dehydrate_without_delete_pattern_is_exact_witness :
  (get_workflow_config Scenario.str_int 7%Z
     (dehydrate_cache None "workflow_config_*" Scenario.cached).2).1
  = Return (Some "row 7").
Proof.
  assert ("workflow_config_*" ≠ "workflow_config_" +:+ Scenario.str_int 7%Z)
    as Hne by (by vm_compute).
  rewrite (proj2 (proj2 (proj2 (proj2
             (dehydrate_without_delete_pattern_is_exact Scenario.str_int
                7%Z "workflow_config_*" Scenario.cached Hne))))).
  by vm_compute.
Defined.

Lemma dehydrated_config_is_not_served_witness :
  (get_workflow_config Scenario.str_int 7%Z
     (dehydrate_cache None ("workflow_config_" +:+ Scenario.str_int 7%Z)
        Scenario.cached).2).1
  = Return None.
Proof.
  rewrite (dehydrated_config_is_not_served Scenario.str_int None 7%Z
             Scenario.cached).
  - by vm_compute.
  - by intros del c [=].
Defined.

Lemma unit_names_agree_witness :
  loader_unit_name Scenario.py_path = "tmpp_w81mzt"
  ∧ path_stem Scenario.py_path = "tmpp_w81mzt".
Proof.
  destruct (unit_names_agree "/srv/app" "tmpp_w81mzt") as (H1 & H2 & _).
  - by vm_compute.
  - done.
  - by_evaluation.
  - by_evaluation.
  - split; [|exact H2]. by rewrite <-H2.
Defined.

Lemma scenario_names_plain k :
  ("/"%char ∉ chars (Scenario.candidate k))
  ∧ ("."%char ∉ chars (Scenario.candidate k)).
Proof.
  destruct k as [|[|[|k]]]; split; by_evaluation.
Qed.

Lemma successful_generation_witness :
  ∃ w', @create_pydantic_model
          (Scenario.tool_writes 0 Scenario.model_source)
          Scenario.a_is_1 Scenario.start
        = (Return (getattr (Scenario.model_unit "tmpp_w81mzt") "Model",
                   nl +:+ "class Model(BaseModel):" +:+ nl
                      +:+ "  a: int" +:+ nl), w')
      ∧ stdout w' = [[PStr "model generation successful"]]
      ∧ files w' !! Scenario.json_path = None
      ∧ files w' !! Scenario.py_path = None.
Proof.
  destruct (@successful_generation
              (Scenario.tool_writes 0 Scenario.model_source)
              Scenario.a_is_1 Scenario.start
              Scenario.json_path Scenario.py_path
              (@prepare (Scenario.tool_writes 0 Scenario.model_source)
                 Scenario.a_is_1 Scenario.start).2
              (<[Scenario.py_path := Scenario.model_source]>
                 (files (@prepare
                           (Scenario.tool_writes 0 Scenario.model_source)
                           Scenario.a_is_1 Scenario.start).2))
              Scenario.model_source Scenario.model_source)
    as (k & Hk & Hrun).
  - by vm_compute.
  - apply scenario_names_plain.
  - by vm_compute.
  - by vm_compute.
  - vm_compute. eauto.
  - apply lookup_insert_eq.
  - by vm_compute.
  - destruct (Hrun (Scenario.model_unit "tmpp_w81mzt"))
      as (w' & Hw & Hout & Hj & Hp).
    + destruct k as [|[|[|k]]]; vm_compute in Hk; try discriminate Hk.
      by vm_compute.
    + exists w'. split; [exact Hw|]. split; [exact Hout|]. by split.
Defined.

Lemma unserialisable_sample_raises_witness :
  ∃ w', @create_pydantic_model Cases.picky_dumps None Scenario.start
        = (Raise (PyError "TypeError"), w')
      ∧ files w' = files Scenario.start.
Proof.
  destruct (@unserialisable_sample_raises Cases.picky_dumps None
              Scenario.start (PyError "TypeError"))
    as (e' & w' & Hrun & _ & Hf & _).
  - done.
  - exists w'. split; [|exact Hf].
    rewrite Hrun. revert Hrun. vm_compute. by intros [= <- _].
Defined.

Lemma tool_starts_on_the_dumped_sample_witness :
  ∃ text, Scenario.dumps Scenario.a_is_1 = inr text
        ∧ files (@prepare Scenario.tool_silent Scenario.a_is_1
                   Scenario.start).2 !! Scenario.json_path = Some text
        ∧ files (@prepare Scenario.tool_silent Scenario.a_is_1
                   Scenario.start).2 !! Scenario.py_path = Some "".
Proof.
  destruct (@tool_starts_on_the_dumped_sample Scenario.tool_silent
              Scenario.a_is_1 Scenario.start
              Scenario.json_path Scenario.py_path
              (@prepare Scenario.tool_silent Scenario.a_is_1
                 Scenario.start).2)
    as (text & Ht & Hj & Hp & _).
  - by vm_compute.
  - exists text. by repeat split.
Defined.

Lemma pipeline_registers_the_working_directory_witness :
  sys_path (@create_pydantic_model Scenario.tool_silent Scenario.a_is_1
              Scenario.start).2
  = ["/srv/app/src"; "/usr/lib/python3.11"; "/srv/app"].
Proof.
  rewrite (@pipeline_registers_the_working_directory Scenario.tool_silent
             Scenario.a_is_1 Scenario.start
             Scenario.json_path Scenario.py_path
             (@prepare Scenario.tool_silent Scenario.a_is_1
                Scenario.start).2
             0%Z
             (files (@prepare Scenario.tool_silent Scenario.a_is_1
                       Scenario.start).2)).
  - by vm_compute.
  - by vm_compute.
  - intros k. apply scenario_names_plain.
  - by vm_compute.
  - by vm_compute.
Defined.

Lemma failed_load_leaves_directory_registered_witness :
  "/srv/app" ∈ sys_path (@import_model_from_generated_file
                           Scenario.tool_silent "/srv/app/missing.py"
                           Scenario.start).2.
Proof.
  apply (proj1 (@failed_load_leaves_directory_registered Scenario.tool_silent
                  "/srv/app/missing.py" Scenario.start
                  (PyError "FileNotFoundError") ltac:(by vm_compute))).
Defined.

Lemma removed_input_shows_on_exit_witness :
  (@create_pydantic_model Cases.tool_eats_input Scenario.a_is_1
     Scenario.start).1
  = Raise (PyError "FileNotFoundError").
Proof.
  apply (proj1 (@removed_input_shows_on_exit Cases.tool_eats_input
                  Scenario.a_is_1 Scenario.start
                  Scenario.json_path Scenario.py_path
                  (@prepare Cases.tool_eats_input Scenario.a_is_1
                     Scenario.start).2
                  0%Z
                  (delete Scenario.json_path
                     (<[Scenario.py_path := Scenario.model_source]>
                        (files (@prepare Cases.tool_eats_input
                                  Scenario.a_is_1 Scenario.start).2)))
                  Scenario.model_source
                  ltac:(by vm_compute) ltac:(by vm_compute)
                  ltac:(by vm_compute) ltac:(by vm_compute))).
Defined.

Lemma empty_text_iff_nothing_qualifies_witness :
  class_details_of (Scenario.empty_unit "tmpp_w81mzt") Scenario.base_model
  = "".
Proof.
  apply (proj2 (empty_text_iff_nothing_qualifies
                  (Scenario.empty_unit "tmpp_w81mzt") Scenario.base_model)).
  intros n c Hin. apply list_elem_of_singleton in Hin. done.
Defined.

Lemma every_qualifying_binding_is_described_witness :
  ∃ d, d ∈ extract Scenario.nested_unit Scenario.base_model
     ∧ class_name d = "Alpha".
Proof.
  destruct (every_qualifying_binding_is_described Scenario.nested_unit
              Scenario.base_model "Alpha"
              (Scenario.declared "tmpp_w81mzt" 11 "Alpha"
                 [("y", Scenario.int_type); ("b", Scenario.optional_int)]))
    as [Hd _].
  - apply list_elem_of_In. vm_compute. tauto.
  - by vm_compute.
  - done.
  - eexists. split; [exact Hd|done].
Defined.

Lemma text_independent_of_binding_order_witness :
  class_details_of Scenario.nested_unit Scenario.base_model
  = class_details_of Cases.nested_unit_reordered Scenario.base_model.
Proof.
  apply text_independent_of_binding_order.
  - done.
  - apply Permutation_rev.
  - by_evaluation.
Defined.

Lemma search_by_tags_matches_a_shared_tag_witness :
  get_queryset Cases.row_tags {[ "tags" := "qa,vision" ]} Cases.rows
    `sublist_of` Cases.rows.
Proof.
  apply (proj1 (search_by_tags_matches_a_shared_tag Cases.row_tags
                  {[ "tags" := "qa,vision" ]} Cases.rows "qa,vision"
                  ltac:(done) ltac:(done))).
Defined.

Lemma tag_with_a_comma_is_never_found_witness :
  {| Cases.row_id := "w4"; Cases.row_tags := Some ["a,b"] |}
    ∉ get_queryset Cases.row_tags {[ "tags" := "a,b" ]} Cases.rows.
Proof.
  apply (tag_with_a_comma_is_never_found Cases.row_tags
           {[ "tags" := "a,b" ]} Cases.rows "a,b").
  - done.
  - done.
  - intros ts t [= <-] ->%list_elem_of_singleton.
    apply list_elem_of_In. vm_compute. tauto.
Defined.

Lemma progress_counts_main_tasks_only_witness :
  task_progress Cases.ratio "w1" Cases.tasks
  = task_progress Cases.ratio "w1" (rev Cases.tasks).
Proof.
  apply progress_counts_main_tasks_only.
  unfold main_tasks_of. apply filter_Permutation, Permutation_rev.
Defined.


Lemma search_tags_are_alternatives_witness :
  {| Cases.row_id := "w2"; Cases.row_tags := Some ["vision"] |}
    ∈ get_queryset Cases.row_tags {[ "tags" := "qa" +:+ "," +:+ "vision" ]}
        Cases.rows.
Proof.
  apply (search_tags_are_alternatives Cases.row_tags Cases.rows
           "qa" "vision"); [done..|].
  right. apply list_elem_of_In. vm_compute. tauto.
Defined.

Lemma no_free_name_raises_FileExistsError_witness :
  (@create_pydantic_model Cases.one_name Scenario.a_is_1 Cases.crowded).1
  = Raise (PyError "FileExistsError").
Proof.
  apply (@no_free_name_raises_FileExistsError Cases.one_name).
  intros k. exists "{}". by vm_compute.
Defined.
